(** * Session-guarded key-value store: shallow embedding and properties

    The development embeds the two classes of the program,
    [Session] (session.py) and [Database] (sample/sample.py), as
    state-passing functions and proves properties of them.

    Modelling choices.
    - [time.time()] reads a clock.  The clock is a sequence of readings
      [clock : nat -> Q] held in the world together with the number of
      readings consumed so far; every call of [time.time()] in the source
      is one read in the model, in the source's evaluation order.  Python
      floats are abstracted by rationals and float addition and
      subtraction by the exact ones, [int(x)] is truncation towards zero;
      a property that depends on the exact value of a sum or difference
      of arbitrary size assumes that it is a float value ([binary64]), so
      that the program computes it without rounding or overflow.
    - An attribute that has not been assigned yet is [None] in an [option]
      field; reading it raises [AttributeError], as in Python.
    - Python exceptions are values of [exn]; a method is a function from
      the object and the world to a result ([Ok] or [Raise]), the object
      and the world.  Mutations made before a [raise] persist.
    - A Python [dict] is an association list in insertion order with
      unique keys (iteration order is observable in [logout]).
    - The file system maps a path to the characters of the file as
      [f.write] stores them where the line separator is ["\n"]; reading
      is in text mode, with universal newlines.  The paths passed to
      [open] are logged; standard output is the list of printed lines.
    - Characters are the code points 0..255. *)

From Stdlib Require Import ZArith QArith Qround String Ascii List Lia Lqa.
From Stdlib Require Import DecimalString.
From stdpp Require Import base option gmap strings.

Import ListNotations.
Local Open Scope string_scope.
Local Open Scope list_scope.

(** ** Exceptions, results, the world *)

(** The built-in exceptions the program raises or can run into.  The
    argument is the message ([AttributeError]: the attribute's name;
    [FileNotFoundError]: the path). *)
Inductive exn : Type :=
| ValueError (msg : string)
| AttributeError (attr : string)
| PermissionError (msg : string)
| TypeError (msg : string)
| KeyError (key : string)
| FileNotFoundError (path : string).

Inductive result (A : Type) : Type :=
| Ok (a : A)
| Raise (e : exn).
Arguments Ok {A} a.
Arguments Raise {A} e.

Record World : Type := mkWorld {
  clock : nat -> Q;              (* the readings time.time() will return *)
  ticks : nat;                   (* how many readings were consumed *)
  fs : gmap string string;       (* path |-> text of the file *)
  opened : list string;          (* the paths passed to open(), oldest first *)
  stdout : list string           (* printed lines, oldest first *)
}.

(** The reading the next [time.time()] returns. *)
Definition now (w : World) : Q := clock w (ticks w).

Definition tick (w : World) : World :=
  mkWorld (clock w) (S (ticks w)) (fs w) (opened w) (stdout w).

Definition emit (line : string) (w : World) : World :=
  mkWorld (clock w) (ticks w) (fs w) (opened w) (stdout w ++ [line]).

Definition set_fs (f : gmap string string) (w : World) : World :=
  mkWorld (clock w) (ticks w) f (opened w) (stdout w).

Definition log_open (path : string) (w : World) : World :=
  mkWorld (clock w) (ticks w) (fs w) (opened w ++ [path]) (stdout w).

(** ** The method monad: state [St] (the object), the world, exceptions *)

Definition M (St A : Type) : Type := St -> World -> result A * St * World.

Definition ret {St A} (a : A) : M St A := fun s w => (Ok a, s, w).

Definition bind {St A B} (m : M St A) (k : A -> M St B) : M St B :=
  fun s w =>
    match m s w with
    | (Ok a, s', w') => k a s' w'
    | (Raise e, s', w') => (Raise e, s', w')
    end.

Definition raise {St A} (e : exn) : M St A := fun s w => (Raise e, s, w).

Notation "'let*' x := m 'in' k" := (bind m (fun x => k))
  (at level 10, x name, m at level 100, k at level 200).

(** [try: m  except E: h  else: k] where [handles] says which exceptions
    the clause catches.  An exception of [h] or of [k] is not caught.  A
    handler that ends in [return] followed by more statements is this
    form, with the statements that follow as [k]. *)
Definition try_except_else {St A B} (m : M St A) (handles : exn -> bool)
    (h : M St B) (k : A -> M St B) : M St B :=
  fun s w =>
    match m s w with
    | (Ok a, s', w') => k a s' w'
    | (Raise e, s', w') => if handles e then h s' w' else (Raise e, s', w')
    end.

(** [try: m  except E: h] *)
Definition try_except {St A} (m : M St A) (handles : exn -> bool)
    (h : M St A) : M St A :=
  try_except_else m handles h ret.

Definition is_ValueError (e : exn) : bool :=
  match e with ValueError _ => true | _ => false end.

Definition is_AttributeError (e : exn) : bool :=
  match e with AttributeError _ => true | _ => false end.

(** [time.time()] *)
Definition time_time {St} : M St Q := fun s w => (Ok (now w), s, tick w).

(** [print(line)] *)
Definition print {St} (line : string) : M St unit :=
  fun s w => (Ok tt, s, emit line w).

Definition outcome {St A} (r : result A * St * World) : result A := fst (fst r).
Definition object {St A} (r : result A * St * World) : St := snd (fst r).
Definition world {St A} (r : result A * St * World) : World := snd r.

(** ** Numbers *)

(** [x > y] on clock values. *)
Definition Qgtb (x y : Q) : bool := negb (Qle_bool x y).

(** Python's [int(x)] on a float: truncation towards zero. *)
Definition int (x : Q) : Z := Z.quot (Qnum x) (Zpos (Qden x)).

(** [str(n)] / ["{}".format(n)] for an integer. *)
Definition str (n : Z) : string := NilZero.string_of_int (Z.to_int n).

(** ** session.py *)

Module Session.

Record t : Type := mk {
  _session_duration : option Z;
  _session_expiry : option Q
}.

(** The object before [__init__] has run. *)
Definition blank : t := mk None None.

Definition getattr_duration : M t Z := fun s w =>
  match _session_duration s with
  | Some d => (Ok d, s, w)
  | None => (Raise (AttributeError "_session_duration"), s, w)
  end.

Definition getattr_expiry : M t Q := fun s w =>
  match _session_expiry s with
  | Some e => (Ok e, s, w)
  | None => (Raise (AttributeError "_session_expiry"), s, w)
  end.

Definition setattr_duration (d : Z) : M t unit := fun s w =>
  (Ok tt, mk (Some d) (_session_expiry s), w).

Definition setattr_expiry (e : Q) : M t unit := fun s w =>
  (Ok tt, mk (_session_duration s) (Some e), w).

Definition __init__ (session_duration : Z) : M t unit :=
  setattr_duration session_duration.

(** The sum is the exact one: the program rounds it to a float, and
    raises [OverflowError] for a duration beyond the float range. *)
Definition start_session : M t unit :=
  let* t0 := time_time in
  let* d := getattr_duration in
  setattr_expiry (t0 + inject_Z d)%Q.

Definition expire_session : M t unit :=
  let* t0 := time_time in
  setattr_expiry t0.

Definition has_expired : M t bool :=
  try_except
    (let* t0 := time_time in
     let* e := getattr_expiry in
     ret (Qgtb t0 e))
    is_AttributeError
    (raise (ValueError "session has not been started yet")).

(** The difference is the exact one: the program rounds it to a float. *)
Definition time_until_expiry : M t Z :=
  let* b := has_expired in
  if b then ret 0%Z
  else
    let* e := getattr_expiry in
    let* t0 := time_time in
    ret (int (e - t0)%Q).

Definition time_since_expiry : M t Z :=
  let* b := has_expired in
  if negb b then ret 0%Z
  else
    let* t0 := time_time in
    let* e := getattr_expiry in
    ret (int (t0 - e)%Q).

Definition require_session : M t unit :=
  let* b := has_expired in
  if b then
    let* n := time_since_expiry in
    raise (ValueError ("session expired " ++ str n ++ " seconds ago"))
  else ret tt.

(** [Session(session_duration)]: a blank object on which [__init__] has
    run. *)
Definition new (session_duration : Z) : t :=
  mk (Some session_duration) (_session_expiry blank).

End Session.

(** ** Python strings and dictionaries *)

Definition newline : ascii := ascii_of_nat 10.
Definition colon : ascii := ascii_of_nat 58.
Definition carriage_return : ascii := ascii_of_nat 13.

(** [s.split(sep)] for a separator of one character: every occurrence of
    the separator separates, so the result has one part more than there
    are separators. *)
Fixpoint split (sep : ascii) (s : string) : list string :=
  match s with
  | EmptyString => [EmptyString]
  | String c r =>
      if Ascii.eqb c sep then EmptyString :: split sep r
      else match split sep r with
           | [] => [String c EmptyString]
           | p :: ps => String c p :: ps
           end
  end.

(** [f.readlines()] on the text of a file opened in text mode (universal
    newlines): a line ends at a line feed, at a carriage return followed
    by a line feed, or at a lone carriage return, and each of the three is
    presented as one line feed; the last line may have no terminator. *)
Fixpoint readlines (s : string) : list string :=
  match s with
  | EmptyString => []
  | String c r =>
      if Ascii.eqb c newline then String newline EmptyString :: readlines r
      else if Ascii.eqb c carriage_return then
        match r with
        | String c' r' =>
            if Ascii.eqb c' newline
            then String newline EmptyString :: readlines r'
            else String newline EmptyString :: readlines r
        | EmptyString => [String newline EmptyString]
        end
      else match readlines r with
           | [] => [String c EmptyString]
           | l :: ls => String c l :: ls
           end
  end.

(** [c.isspace()] on the code points below 256. *)
Definition isspace (c : ascii) : bool :=
  let n := nat_of_ascii c in
  (Nat.leb 9 n && Nat.leb n 13) || (Nat.leb 28 n && Nat.leb n 32)
  || Nat.eqb n 133 || Nat.eqb n 160.

Fixpoint lstrip (s : string) : string :=
  match s with
  | EmptyString => EmptyString
  | String c r => if isspace c then lstrip r else s
  end.

Fixpoint rstrip (s : string) : string :=
  match s with
  | EmptyString => EmptyString
  | String c r =>
      match rstrip r with
      | EmptyString => if isspace c then EmptyString else String c EmptyString
      | r' => String c r'
      end
  end.

(** [s.strip()] *)
Definition strip (s : string) : string := rstrip (lstrip s).

(** A [dict] from [str] to [str]: the items in insertion order. *)
Definition dict : Type := list (string * string).

(** [d.get(key)] as an option *)
Fixpoint dict_lookup (key : string) (d : dict) : option string :=
  match d with
  | [] => None
  | (k, v) :: r => if String.eqb key k then Some v else dict_lookup key r
  end.

(** [d.get(key, default)] *)
Definition dict_get (key default : string) (d : dict) : string :=
  match dict_lookup key d with
  | Some v => v
  | None => default
  end.

(** [d[key] = value]: an existing key keeps its place, a new one goes
    last. *)
Fixpoint dict_setitem (key value : string) (d : dict) : dict :=
  match d with
  | [] => [(key, value)]
  | (k, v) :: r =>
      if String.eqb key k then (k, value) :: r
      else (k, v) :: dict_setitem key value r
  end.

(** The keys, in iteration order. *)
Definition dict_keys (d : dict) : list string := map fst d.

(** ** Files *)

(** [open(path)] followed by [f.readlines()]; the file is closed when the
    [with] block is left. *)
Definition open_readlines {St} (path : string) : M St (list string) :=
  fun s w =>
    match fs w !! path with
    | Some text => (Ok (readlines text), s, log_open path w)
    | None => (Raise (FileNotFoundError path), s, log_open path w)
    end.

(** [open(path, "w")]: the file is created or truncated. *)
Definition open_w {St} (path : string) : M St unit :=
  fun s w =>
    (Ok tt, s, set_fs (<[path := EmptyString]> (fs w)) (log_open path w)).

(** [f.write(text)] on the file opened at [path]. *)
Definition f_write {St} (path text : string) : M St unit :=
  fun s w =>
    (Ok tt, s,
     set_fs (<[path := (default EmptyString (fs w !! path) ++ text)%string]> (fs w)) w).

(** ** sample/sample.py *)

Module Database.

Definition _USER_SESSION_LENGTH : Z := 1800.
Definition _ADMIN_SESSION_LENGTH : Z := 900.

Definition expired_notice : string :=
  "Your session has expired. Please login again.".

(** A constructed [Database].  It is a [Session] (field [base]);
    [_database] is [None] when [_load] returned Python's [None]. *)
Record t : Type := mk {
  base : Session.t;
  _database : option dict;
  _access_level : string;
  _database_path : string
}.

(** A method inherited from [Session], run on a [Database]. *)
Definition super {A} (m : M Session.t A) : M t A :=
  fun s w =>
    match m (base s) w with
    | (r, b, w') => (r, mk b (_database s) (_access_level s) (_database_path s), w')
    end.

Definition _login (access_level : string) : M Session.t unit :=
  let* _ :=
    if String.eqb access_level "user" then
      Session.__init__ _USER_SESSION_LENGTH
    else if String.eqb access_level "admin" then
      Session.__init__ _ADMIN_SESSION_LENGTH
    else
      raise (ValueError ("Invalid access level: " ++ access_level)) in
  Session.start_session.

(** The body of [for line in database_lines] in [_load];
    [key, value = line.split(":")] raises [ValueError] unless the line
    has exactly one colon. *)
Fixpoint load_lines (database_lines : list string) (database : dict)
    : result dict :=
  match database_lines with
  | [] => Ok database
  | line :: rest =>
      match split colon line with
      | [key; value] => load_lines rest (dict_setitem key (strip value) database)
      | [] | [_] =>
          Raise (ValueError "not enough values to unpack (expected 2, got 1)")
      | _ => Raise (ValueError "too many values to unpack (expected 2)")
      end
  end.

Definition _load (database_path : string) (flush : bool)
    : M Session.t (option dict) :=
  try_except_else Session.require_session is_ValueError
    (let* _ := print expired_notice in
     ret None)
    (fun _ =>
       let* database_lines := open_readlines database_path in
       match load_lines database_lines [] with
       | Ok database => ret (Some database)
       | Raise e => raise e
       end).

(** [Database(access_level, database_path)]: the constructed object, or
    the exception that left [__init__]. *)
Definition __init__ (access_level database_path : string) (w : World)
    : result t * World :=
  match _login access_level Session.blank w with
  | (Raise e, _, w1) => (Raise e, w1)
  | (Ok _, s1, w1) =>
      match _load database_path false s1 w1 with
      | (Raise e, _, w2) => (Raise e, w2)
      | (Ok database, s2, w2) =>
          (Ok (mk s2 database access_level database_path), w2)
      end
  end.

(** [self._database] where a [dict] is needed; on [None] the operation
    raises [err]. *)
Definition the_dict (err : exn) : M t dict :=
  fun s w =>
    match _database s with
    | Some d => (Ok d, s, w)
    | None => (Raise err, s, w)
    end.

Definition setattr_database (d : dict) : M t unit :=
  fun s w => (Ok tt, mk (base s) (Some d) (_access_level s) (_database_path s), w).

Definition getattr_access_level : M t string :=
  fun s w => (Ok (_access_level s), s, w).

Definition getattr_database_path : M t string :=
  fun s w => (Ok (_database_path s), s, w).

(** The value returned is [None] for Python's [None]. *)
Definition view (key : string) : M t (option string) :=
  try_except_else (super Session.require_session) is_ValueError
    (let* _ := print expired_notice in
     ret None)
    (fun _ =>
       let* d := the_dict (AttributeError "get") in
       ret (Some (dict_get key "Key does not exist" d))).

Definition modify (key value : string) : M t unit :=
  try_except_else (super Session.require_session) is_ValueError
    (let* _ := print expired_notice in
     ret tt)
    (fun _ =>
       let* access_level := getattr_access_level in
       if negb (String.eqb access_level "admin") then
         raise (PermissionError "Only admins can modify the database.")
       else
         let* d := the_dict
           (TypeError "'NoneType' object does not support item assignment") in
         setattr_database (dict_setitem key value d)).

(** The body of [for key in self._database] in [logout]. *)
Fixpoint logout_loop (path : string) (keys : list string) : M t unit :=
  match keys with
  | [] => ret tt
  | key :: rest =>
      let* _ := f_write path key in
      let* _ := f_write path ":" in
      let* d := the_dict (TypeError "'NoneType' object is not subscriptable") in
      let* _ :=
        match dict_lookup key d with
        | Some v => f_write path v
        | None => raise (KeyError key)
        end in
      logout_loop path rest
  end.

Definition logout : M t unit :=
  let* _ := super Session.expire_session in
  let* path := getattr_database_path in
  let* _ := open_w path in
  let* d := the_dict (TypeError "'NoneType' object is not iterable") in
  logout_loop path (dict_keys d).

End Database.

(** ** Vocabulary of the properties *)

(** The session has an expiry: [start_session] or [expire_session] has
    assigned it. *)
Definition started (s : Session.t) : Prop :=
  exists e, Session._session_expiry s = Some e.

(** The next clock reading is not past the expiry. *)
Definition live (s : Session.t) (w : World) : Prop :=
  exists e, Session._session_expiry s = Some e /\ (now w <= e)%Q.

(** The next clock reading is past the expiry. *)
Definition expired (s : Session.t) (w : World) : Prop :=
  exists e, Session._session_expiry s = Some e /\ (e < now w)%Q.

Definition not_started_yet : exn :=
  ValueError "session has not been started yet".

Definition session_expired (n : Z) : exn :=
  ValueError ("session expired " ++ str n ++ " seconds ago").

(** The calls a client can make on a session; a list of them is a
    history of the session. *)
Inductive call : Type :=
| Start | Expire | HasExpired | TimeUntilExpiry | TimeSinceExpiry
| RequireSession.

Definition after {A} (r : result A * Session.t * World) : Session.t * World :=
  (object r, world r).

(** One call; an exception it raises is caught by the client. *)
Definition perform (c : call) (s : Session.t) (w : World)
    : Session.t * World :=
  match c with
  | Start => after (Session.start_session s w)
  | Expire => after (Session.expire_session s w)
  | HasExpired => after (Session.has_expired s w)
  | TimeUntilExpiry => after (Session.time_until_expiry s w)
  | TimeSinceExpiry => after (Session.time_since_expiry s w)
  | RequireSession => after (Session.require_session s w)
  end.

Fixpoint run (cs : list call) (s : Session.t) (w : World)
    : Session.t * World :=
  match cs with
  | [] => (s, w)
  | c :: cs' => let (s', w') := perform c s w in run cs' s' w'
  end.

(** [x] is a finite value of Python's [float] (IEEE binary64): a
    significand below [2^53] times a power of two in the exponent range.
    A sum or difference of floats that is such a value is computed exactly
    by the program, and an integer that is such a value converts to
    [float] without rounding or [OverflowError]. *)
Definition binary64 (x : Q) : Prop :=
  exists m e : Z,
    (Z.abs m < 2 ^ 53)%Z /\ (-1074 <= e <= 971)%Z /\
    (x == inject_Z m * Qpower 2 e)%Q.

(** The number of colons of a line. *)
Fixpoint colons (line : string) : nat :=
  match line with
  | EmptyString => 0
  | String c r => if Ascii.eqb c colon then S (colons r) else colons r
  end.

(** After the specification's words: a line split at its first colon
    only; [None] when it has no colon. *)
Fixpoint spec_split_first_colon (line : string) : option (string * string) :=
  match line with
  | EmptyString => None
  | String c r =>
      if Ascii.eqb c colon then Some (EmptyString, r)
      else match spec_split_first_colon r with
           | Some (k, v) => Some (String c k, v)
           | None => None
           end
  end.

(** After the specification's words: the value of [key] is the trimmed
    value of the last line whose key is [key]. *)
Fixpoint spec_value (key : string) (lines : list string) : option string :=
  match lines with
  | [] => None
  | line :: rest =>
      match spec_value key rest with
      | Some v => Some v
      | None =>
          match spec_split_first_colon line with
          | Some (k, v) => if String.eqb key k then Some (strip v) else None
          | None => None
          end
      end
  end.

(** What [logout] writes for a dictionary: key, colon, value of every
    item, with nothing in between. *)
Fixpoint written (d : dict) : string :=
  match d with
  | [] => EmptyString
  | (k, v) :: r => k ++ ":" ++ v ++ written r
  end.

(** The number of characters of a text that end a line when it is read:
    line feeds and carriage returns. *)
Fixpoint line_breaks (text : string) : nat :=
  match text with
  | EmptyString => 0
  | String c r =>
      if Ascii.eqb c newline || Ascii.eqb c carriage_return
      then S (line_breaks r) else line_breaks r
  end.

(** A dictionary that [logout] writes in a form [_load] reads back: it is
    empty, or has one item whose key and value have no colon, no line feed
    and no carriage return and whose value has no white space at its
    ends. *)
Definition reads_back (d : dict) : Prop :=
  d = [] \/
  exists k v, d = [(k, v)] /\
    colons k = 0%nat /\ colons v = 0%nat /\
    line_breaks k = 0%nat /\ line_breaks v = 0%nat /\ strip v = v.

(** The keys of the store's mapping are distinct (no condition when the
    store holds no mapping). *)
Definition distinct_keys (db : Database.t) : Prop :=
  match Database._database db with
  | Some d => NoDup (dict_keys d)
  | None => True
  end.

(** The duration [_login] gives to an access level. *)
Definition session_length (access_level : string) : Z :=
  if String.eqb access_level "user" then Database._USER_SESSION_LENGTH
  else Database._ADMIN_SESSION_LENGTH.

(** The calls a client can make on a store, with the two it inherits from
    [Session] that change the session; a list of them is a history of the
    store. *)
Inductive store_call : Type :=
| View (key : string)
| Modify (key value : string)
| Logout
| StartSession
| ExpireSession.

Definition after_store {A} (r : result A * Database.t * World)
    : Database.t * World :=
  (object r, world r).

(** One call; an exception it raises is caught by the client. *)
Definition perform_store (c : store_call) (db : Database.t) (w : World)
    : Database.t * World :=
  match c with
  | View key => after_store (Database.view key db w)
  | Modify key value => after_store (Database.modify key value db w)
  | Logout => after_store (Database.logout db w)
  | StartSession => after_store (Database.super Session.start_session db w)
  | ExpireSession => after_store (Database.super Session.expire_session db w)
  end.

Fixpoint run_store_calls (cs : list store_call) (db : Database.t) (w : World)
    : Database.t * World :=
  match cs with
  | [] => (db, w)
  | c :: cs' =>
      let (db', w') := perform_store c db w in run_store_calls cs' db' w'
  end.

(** ** Sample data *)

(** A line of text with its line break. *)
Definition text_line (text : string) : string :=
  text ++ String newline EmptyString.

Definition text_a : string := text_line "a:1".
Definition text_ab : string := text_line "a:1" ++ text_line "b:2".
Definition text_dup : string :=
  text_line "a:1" ++ text_line "b:2" ++ text_line "a: 3 ".
Definition text_kvw : string := text_line "k:v:w".

(** A clock that advances by one second at every reading. *)
Definition clock_1s (n : nat) : Q := inject_Z (1000 + Z.of_nat n).

(** A clock that advances by half a second at every reading. *)
Definition clock_half_s (n : nat) : Q := Qmake (2000 + Z.of_nat n) 2.

(** A clock too coarse to tell consecutive readings apart. *)
Definition clock_frozen (_ : nat) : Q := inject_Z 1000.

(** A clock on which the session lapses after the store was constructed:
    the first two readings are 1000, the later ones 5000. *)
Definition clock_lapse (n : nat) : Q :=
  if Nat.ltb n 2 then inject_Z 1000 else inject_Z 5000.

(** A world with one file, [db.txt], nothing read or printed yet. *)
Definition world0 (c : nat -> Q) (text : string) : World :=
  mkWorld c 0 {[ "db.txt" := text ]} [] [].

(** The same world when [n] readings of the clock were consumed. *)
Definition world_at (c : nat -> Q) (n : nat) (text : string) : World :=
  mkWorld c n {[ "db.txt" := text ]} [] [].

(** A started session of five seconds, then expired. *)
Definition started_then_expired (c : nat -> Q) : Session.t * World :=
  run [Start; Expire] (Session.new 5) (world0 c EmptyString).

(** A session on which only [expire_session] was called. *)
Definition expired_never_started (c : nat -> Q) : Session.t * World :=
  run [Expire] (Session.new 5) (world0 c EmptyString).

(** [Database(access_level, "db.txt")] in a world whose file has [text]. *)
Definition constructed (access_level : string) (c : nat -> Q) (text : string)
    : result Database.t * World :=
  Database.__init__ access_level "db.txt" (world0 c text).

(** The store constructed over the text [a:1\nb:2\n] when the clock first
    reads 1000, and the world after the construction. *)
Definition store_ab (access_level : string) (duration : Z) : Database.t :=
  Database.mk (Session.mk (Some duration) (Some (1000 + inject_Z duration)%Q))
    (Some [("a", "1"); ("b", "2")]) access_level "db.txt".

Definition world_ab (c : nat -> Q) : World :=
  mkWorld c 2 {[ "db.txt" := text_ab ]} ["db.txt"] [].

(** The session of a ["user"] store just after [_login] at reading 1000. *)
Definition session_1s : Session.t :=
  Session.mk (Some 1800%Z) (Some (1000 + inject_Z 1800)%Q).

(** * Properties *)

(** ** Clock comparisons and [int] *)

Lemma Qgtb_true (x y : Q) : Qgtb x y = true <-> (y < x)%Q.
Proof.
  unfold Qgtb. rewrite negb_true_iff. split.
  - intros H. apply Qnot_le_lt. intros L.
    apply Qle_bool_iff in L. congruence.
  - intros H. destruct (Qle_bool x y) eqn:E; [|reflexivity].
    apply Qle_bool_iff in E. exfalso. exact (Qlt_not_le _ _ H E).
Qed.

Lemma Qgtb_false (x y : Q) : Qgtb x y = false <-> (x <= y)%Q.
Proof.
  unfold Qgtb. rewrite negb_false_iff. apply Qle_bool_iff.
Qed.

(** [int] truncates towards zero: it is not negative from [-1] on. *)
Lemma int_nonneg (x : Q) : (- (1) < x)%Q -> (0 <= int x)%Z.
Proof.
  destruct x as [n d]. unfold Qlt, int. simpl. intros H.
  destruct (Z_lt_le_dec n 0) as [Hn|Hn].
  - assert (E : Z.quot n (Z.pos d) = 0%Z) by (apply Z.quot_small_iff; lia).
    rewrite E. lia.
  - apply Z.quot_pos; lia.
Qed.

Example str_of_integers : str 0 = "0" /\ str 42 = "42" /\ str (-3) = "-3".
Proof. repeat split; reflexivity. Qed.

Example int_truncates :
  int (7 # 2) = 3%Z /\ int (- (7) # 2) = (-3)%Z /\ int (- (1) # 2) = 0%Z.
Proof. repeat split; reflexivity. Qed.

(** ** The session *)

Ltac run_session :=
  unfold Session.require_session, Session.time_since_expiry,
    Session.time_until_expiry, Session.has_expired, Session.expire_session,
    Session.start_session, try_except, try_except_else, bind, time_time,
    Session.getattr_expiry, Session.getattr_duration, Session.setattr_expiry,
    ret, raise; simpl.

Lemma has_expired_started (s : Session.t) (w : World) (e : Q) :
  Session._session_expiry s = Some e ->
  Session.has_expired s w = (Ok (Qgtb (now w) e), s, tick w).
Proof. intros H. run_session. rewrite H. reflexivity. Qed.

Lemma has_expired_unset (s : Session.t) (w : World) :
  Session._session_expiry s = None ->
  Session.has_expired s w = (Raise not_started_yet, s, tick w).
Proof. intros H. run_session. rewrite H. reflexivity. Qed.

Lemma time_until_expiry_started (s : Session.t) (w : World) (e : Q) :
  Session._session_expiry s = Some e ->
  Session.time_until_expiry s w =
    if Qgtb (now w) e then (Ok 0%Z, s, tick w)
    else (Ok (int (e - now (tick w))), s, tick (tick w)).
Proof.
  intros H. run_session. rewrite H. simpl.
  destruct (Qgtb (now w) e); simpl; [|rewrite H]; reflexivity.
Qed.

Lemma time_since_expiry_started (s : Session.t) (w : World) (e : Q) :
  Session._session_expiry s = Some e ->
  Session.time_since_expiry s w =
    if Qgtb (now w) e then (Ok (int (now (tick w) - e)), s, tick (tick w))
    else (Ok 0%Z, s, tick w).
Proof.
  intros H. run_session. rewrite H. simpl.
  destruct (Qgtb (now w) e); simpl; [rewrite H|]; reflexivity.
Qed.

Lemma time_until_expiry_unset (s : Session.t) (w : World) :
  Session._session_expiry s = None ->
  Session.time_until_expiry s w = (Raise not_started_yet, s, tick w).
Proof. intros H. run_session. rewrite H. reflexivity. Qed.

Lemma time_since_expiry_unset (s : Session.t) (w : World) :
  Session._session_expiry s = None ->
  Session.time_since_expiry s w = (Raise not_started_yet, s, tick w).
Proof. intros H. run_session. rewrite H. reflexivity. Qed.

Lemma require_session_unset (s : Session.t) (w : World) :
  Session._session_expiry s = None ->
  Session.require_session s w = (Raise not_started_yet, s, tick w).
Proof. intros H. run_session. rewrite H. reflexivity. Qed.

(** On a live session [require_session] reads the clock once and does
    nothing else. *)
Lemma require_session_live (s : Session.t) (w : World) :
  live s w -> Session.require_session s w = (Ok tt, s, tick w).
Proof.
  intros (e & H & L). apply Qgtb_false in L.
  run_session. rewrite H. simpl. rewrite L. reflexivity.
Qed.

(** On an expired session [require_session] raises [ValueError] with the
    value of [time_since_expiry] in the message; the object, the files and
    the output are as before. *)
Lemma require_session_expired (s : Session.t) (w : World) :
  expired s w ->
  exists n w',
    Session.require_session s w = (Raise (session_expired n), s, w') /\
    outcome (Session.time_since_expiry s (tick w)) = Ok n /\
    fs w' = fs w /\ opened w' = opened w /\ stdout w' = stdout w.
Proof.
  intros (e & H & L). apply Qgtb_true in L.
  rewrite (time_since_expiry_started s (tick w) e H).
  unfold Session.require_session, bind.
  rewrite (has_expired_started s w e H), L.
  rewrite (time_since_expiry_started s (tick w) e H).
  destruct (Qgtb (now (tick w)) e);
    eexists; eexists; repeat split; reflexivity.
Qed.

(** After [expire_session] the expiry is the reading it took, so
    [has_expired] compares the next reading with that one. *)
Lemma expire_then_has_expired (s : Session.t) (w : World) :
  let r := Session.expire_session s w in
  Session.has_expired (object r) (world r) =
    (Ok (Qgtb (clock w (S (ticks w))) (clock w (ticks w))),
     object r, tick (tick w)).
Proof. reflexivity. Qed.

(** After [start_session] the expiry is the reading plus the duration. *)
Lemma start_session_sets_expiry (s : Session.t) (w : World) (d : Z) :
  Session._session_duration s = Some d ->
  Session.start_session s w =
    (Ok tt, Session.mk (Some d) (Some (now w + inject_Z d)%Q), tick w).
Proof. intros H. run_session. rewrite H. simpl. rewrite H. reflexivity. Qed.

(** X6.  When the clock has moved on since [expire_session] read it, the
    session is expired and [require_session] raises, with the value of
    [time_since_expiry] in the message. *)
Lemma expire_then_expired (s : Session.t) (w : World) :
  (clock w (ticks w) < clock w (S (ticks w)))%Q ->
  let r := Session.expire_session s w in
  outcome (Session.has_expired (object r) (world r)) = Ok true /\
  exists n,
    outcome (Session.require_session (object r) (world r))
      = Raise (session_expired n) /\
    outcome (Session.time_since_expiry (object r) (tick (world r))) = Ok n.
Proof.
  intros H r. split.
  - subst r. rewrite expire_then_has_expired. unfold outcome. simpl.
    f_equal. apply Qgtb_true. exact H.
  - destruct (require_session_expired (object r) (world r))
      as (n & w' & E & T & _).
    + exists (clock w (ticks w)). split; [reflexivity|exact H].
    + exists n. rewrite E. split; [reflexivity|exact T].
Qed.

(** Calls other than [start_session] and [expire_session] leave the
    expiry as it is. *)
Lemma perform_query_expiry (c : call) (s : Session.t) (w : World) :
  c <> Start -> c <> Expire ->
  Session._session_expiry (fst (perform c s w)) = Session._session_expiry s.
Proof.
  intros H1 H2. destruct c; try congruence; simpl; unfold after, object;
    destruct (Session._session_expiry s) as [e|] eqn:E.
  - rewrite (has_expired_started _ _ e E). exact E.
  - rewrite (has_expired_unset _ _ E). exact E.
  - rewrite (time_until_expiry_started _ _ e E).
    destruct (Qgtb (now w) e); exact E.
  - rewrite (time_until_expiry_unset _ _ E). exact E.
  - rewrite (time_since_expiry_started _ _ e E).
    destruct (Qgtb (now w) e); exact E.
  - rewrite (time_since_expiry_unset _ _ E). exact E.
  - destruct (Qgtb (now w) e) eqn:G.
    + destruct (require_session_expired s w) as (n & w' & R & _).
      { exists e. split; [exact E|]. apply Qgtb_true. exact G. }
      rewrite R. exact E.
    + rewrite require_session_live; [exact E|].
      exists e. split; [exact E|]. apply Qgtb_false. exact G.
  - rewrite (require_session_unset _ _ E). exact E.
Qed.

Lemma run_queries_expiry (cs : list call) :
  forall (s : Session.t) (w : World),
  ~ In Start cs -> ~ In Expire cs ->
  Session._session_expiry (fst (run cs s w)) = Session._session_expiry s.
Proof.
  induction cs as [|c cs IH]; intros s w H1 H2; [reflexivity|].
  simpl. destruct (perform c s w) as [s' w'] eqn:P.
  rewrite IH.
  - change s' with (fst (s', w')). rewrite <- P.
    apply perform_query_expiry; intros ->; [apply H1|apply H2]; left; reflexivity.
  - intros H. apply H1. right. exact H.
  - intros H. apply H2. right. exact H.
Qed.

(** C4 (the code departs from the claim).  A session is started and then
    expired; the clock returns to the next call the reading it returned to
    [expire_session].  [has_expired] then answers [False] and
    [require_session] returns without raising: the comparison in
    [has_expired] is strict, so the session is not expired until the clock
    has moved on. *)
Theorem C4_expire_not_expired_on_same_reading :
  let (s, w) := started_then_expired clock_frozen in
  started s /\
  outcome (Session.has_expired s w) = Ok false /\
  outcome (Session.require_session s w) = Ok tt.
Proof.
  vm_compute. split; [|split; reflexivity].
  eexists. reflexivity.
Qed.

(** C7 (the code departs from the claim).  On a session that was never
    started but on which [expire_session] was called, the three queries
    return values instead of raising [ValueError]: [expire_session] assigns
    the expiry too, and the queries only test that it is assigned. *)
Theorem C7_queries_answer_after_expire_without_start :
  let (s, w) := expired_never_started clock_1s in
  outcome (Session.has_expired s w) = Ok true /\
  outcome (Session.time_until_expiry s w) = Ok 0%Z /\
  outcome (Session.time_since_expiry s w) = Ok 2%Z.
Proof. vm_compute. repeat split; reflexivity. Qed.

(** X5.  On a session on which neither [start_session] nor
    [expire_session] was ever called, whatever queries were made before,
    the three queries and [require_session] raise [ValueError]. *)
Lemma queries_fail_before_start_and_expire
    (d : Z) (cs : list call) (w0 : World) :
  ~ In Start cs -> ~ In Expire cs ->
  let (s, w) := run cs (Session.new d) w0 in
  outcome (Session.has_expired s w) = Raise not_started_yet /\
  outcome (Session.time_until_expiry s w) = Raise not_started_yet /\
  outcome (Session.time_since_expiry s w) = Raise not_started_yet /\
  outcome (Session.require_session s w) = Raise not_started_yet.
Proof.
  intros H1 H2.
  pose proof (run_queries_expiry cs (Session.new d) w0 H1 H2) as E.
  destruct (run cs (Session.new d) w0) as [s w]. simpl in E.
  rewrite (has_expired_unset s w E), (time_until_expiry_unset s w E),
    (time_since_expiry_unset s w E), (require_session_unset s w E).
  repeat split; reflexivity.
Qed.




(** The bound on the two readings is needed: when the clock jumps by a
    second or more between the reading of [has_expired] and the one of the
    subtraction, [time_until_expiry] is negative. *)
Example time_until_expiry_on_clock_jump :
  outcome (Session.time_until_expiry (Session.mk (Some 5%Z) (Some 1005%Q))
             (mkWorld clock_lapse 1 ∅ [] [])) = Ok (-3995)%Z.
Proof. reflexivity. Qed.

(** ** Dictionaries *)

Lemma dict_lookup_setitem_eq (key value : string) (d : dict) :
  dict_lookup key (dict_setitem key value d) = Some value.
Proof.
  induction d as [|[k v] r IH]; simpl.
  - rewrite String.eqb_refl. reflexivity.
  - destruct (String.eqb key k) eqn:E; simpl; rewrite E; [reflexivity|exact IH].
Qed.

Lemma dict_lookup_setitem_ne (key value k : string) (d : dict) :
  k <> key ->
  dict_lookup k (dict_setitem key value d) = dict_lookup k d.
Proof.
  intros N. apply String.eqb_neq in N.
  induction d as [|[k' v] r IH]; simpl.
  - rewrite N. reflexivity.
  - destruct (String.eqb key k') eqn:E; simpl.
    + apply String.eqb_eq in E. subst k'. rewrite N. reflexivity.
    + rewrite IH. reflexivity.
Qed.

(** ** The store *)

Ltac run_store :=
  unfold Database.view, Database.modify, Database._load, try_except_else,
    bind, print, ret, raise, Database.the_dict, Database.getattr_access_level,
    Database.setattr_database.

Lemma super_require_session_live (db : Database.t) (w : World) :
  live (Database.base db) w ->
  Database.super Session.require_session db w = (Ok tt, db, tick w).
Proof.
  intros L. unfold Database.super.
  rewrite (require_session_live _ _ L). destruct db; reflexivity.
Qed.

Lemma super_require_session_expired (db : Database.t) (w : World) :
  expired (Database.base db) w ->
  exists n w',
    Database.super Session.require_session db w
      = (Raise (session_expired n), db, w') /\
    fs w' = fs w /\ opened w' = opened w /\ stdout w' = stdout w.
Proof.
  intros X. unfold Database.super.
  destruct (require_session_expired _ _ X) as (n & w' & E & _ & F).
  exists n, w'. rewrite E. split; [destruct db; reflexivity|exact F].
Qed.

Lemma view_live (db : Database.t) (w : World) (d : dict) (key : string) :
  live (Database.base db) w ->
  Database._database db = Some d ->
  Database.view key db w =
    (Ok (Some (dict_get key "Key does not exist" d)), db, tick w).
Proof.
  intros L D. run_store. rewrite (super_require_session_live db w L).
  rewrite D. reflexivity.
Qed.

Lemma view_expired (db : Database.t) (w : World) (key : string) :
  expired (Database.base db) w ->
  exists w',
    Database.view key db w = (Ok None, db, emit Database.expired_notice w') /\
    fs w' = fs w /\ opened w' = opened w /\ stdout w' = stdout w.
Proof.
  intros X. destruct (super_require_session_expired db w X) as (n & w' & E & F).
  exists w'. run_store. rewrite E. split; [reflexivity|exact F].
Qed.

Lemma modify_live_not_admin (db : Database.t) (w : World) (key value : string) :
  live (Database.base db) w ->
  Database._access_level db <> "admin" ->
  Database.modify key value db w =
    (Raise (PermissionError "Only admins can modify the database."),
     db, tick w).
Proof.
  intros L N. run_store. rewrite (super_require_session_live db w L).
  apply String.eqb_neq in N. rewrite N. reflexivity.
Qed.

Lemma modify_live_admin (db : Database.t) (w : World) (d : dict)
    (key value : string) :
  live (Database.base db) w ->
  Database._access_level db = "admin" ->
  Database._database db = Some d ->
  Database.modify key value db w =
    (Ok tt,
     Database.mk (Database.base db) (Some (dict_setitem key value d))
       (Database._access_level db) (Database._database_path db),
     tick w).
Proof.
  intros L A D. run_store. rewrite (super_require_session_live db w L).
  destruct db as [b o al p]. simpl in *. subst al o. reflexivity.
Qed.

Lemma modify_expired (db : Database.t) (w : World) (key value : string) :
  expired (Database.base db) w ->
  exists w',
    Database.modify key value db w
      = (Ok tt, db, emit Database.expired_notice w') /\
    fs w' = fs w /\ opened w' = opened w /\ stdout w' = stdout w.
Proof.
  intros X. destruct (super_require_session_expired db w X) as (n & w' & E & F).
  exists w'. run_store. rewrite E. split; [reflexivity|exact F].
Qed.

Lemma load_expired (s : Session.t) (w : World) (path : string) (flush : bool) :
  expired s w ->
  exists w',
    Database._load path flush s w
      = (Ok None, s, emit Database.expired_notice w') /\
    fs w' = fs w /\ opened w' = opened w /\ stdout w' = stdout w.
Proof.
  intros X.
  destruct (require_session_expired s w X) as (n & w' & E & _ & F).
  exists w'. run_store. rewrite E. split; [reflexivity|exact F].
Qed.

Lemma load_live (s : Session.t) (w : World) (path text : string) (flush : bool) :
  live s w ->
  fs w !! path = Some text ->
  Database._load path flush s w =
    match Database.load_lines (readlines text) [] with
    | Ok database => (Ok (Some database), s, log_open path (tick w))
    | Raise e => (Raise e, s, log_open path (tick w))
    end.
Proof.
  intros L F. run_store. rewrite (require_session_live s w L).
  unfold open_readlines. simpl. rewrite F.
  destruct (Database.load_lines (readlines text) []); reflexivity.
Qed.

(** On a live session [_load] does not return [None]. *)
Lemma load_live_not_none (s : Session.t) (w : World) (path : string)
    (flush : bool) :
  live s w -> outcome (Database._load path flush s w) <> Ok None.
Proof.
  intros L. run_store. rewrite (require_session_live s w L).
  unfold open_readlines, outcome. simpl.
  destruct (fs w !! path) as [text|]; simpl; [|discriminate].
  destruct (Database.load_lines (readlines text) []); discriminate.
Qed.

Lemma login_valid (access_level : string) (w : World) (r : result unit)
    (s : Session.t) (w' : World) :
  Database._login access_level Session.blank w = (r, s, w') ->
  r = Ok tt ->
  exists d, (900 <= d)%Z /\
    s = Session.mk (Some d) (Some (now w + inject_Z d)%Q) /\ w' = tick w.
Proof.
  unfold Database._login, bind.
  destruct (String.eqb access_level "user").
  - intros E _. injection E as _ <- <-. exists 1800%Z.
    split; [lia|split; reflexivity].
  - destruct (String.eqb access_level "admin").
    + intros E _. injection E as _ <- <-. exists 900%Z.
      split; [lia|split; reflexivity].
    + intros E R. injection E as <- _ _. discriminate.
Qed.

(** A constructed store holds a mapping unless the clock jumped by more
    than the shortest session between the reading of [start_session] and
    the one of [_load]. *)
Lemma constructed_holds_mapping
    (access_level path : string) (w w' : World) (db : Database.t) :
  Database.__init__ access_level path w = (Ok db, w') ->
  (clock w (S (ticks w)) <= clock w (ticks w) + 900)%Q ->
  exists d, Database._database db = Some d.
Proof.
  unfold Database.__init__. intros E J.
  destruct (Database._login access_level Session.blank w) as [[r s1] w1] eqn:EL.
  destruct r as [[]|e]; [|discriminate].
  destruct (login_valid access_level w (Ok tt) s1 w1 EL eq_refl)
    as (d & Hd & -> & ->).
  assert (L : live (Session.mk (Some d) (Some (now w + inject_Z d)%Q)) (tick w)).
  { eexists. split; [reflexivity|]. unfold now. simpl.
    assert (900 <= inject_Z d)%Q by (unfold Qle; simpl; lia). lra. }
  pose proof (load_live_not_none _ _ path false L) as NN.
  destruct (Database._load path false _ (tick w)) as [[r2 s2] w2].
  destruct r2 as [[database|]|e]; [|exfalso; apply NN; reflexivity|discriminate].
  injection E as <- _. exists database. reflexivity.
Qed.

(** ** The sample stores *)

Lemma constructed_user_ab_1s :
  constructed "user" clock_1s text_ab
    = (Ok (store_ab "user" 1800), world_ab clock_1s).
Proof. vm_compute. reflexivity. Qed.

Lemma constructed_admin_ab_1s :
  constructed "admin" clock_1s text_ab
    = (Ok (store_ab "admin" 900), world_ab clock_1s).
Proof. vm_compute. reflexivity. Qed.

Lemma constructed_user_ab_lapse :
  constructed "user" clock_lapse text_ab
    = (Ok (store_ab "user" 1800), world_ab clock_lapse).
Proof. vm_compute. reflexivity. Qed.

Lemma live_store_ab_1s (access_level : string) (duration : Z) :
  (900 <= duration)%Z ->
  live (Database.base (store_ab access_level duration)) (world_ab clock_1s).
Proof.
  intros H. eexists. split; [reflexivity|].
  unfold now, world_ab, clock_1s, Qle. simpl. lia.
Qed.

Lemma expired_store_ab_lapse (access_level : string) (duration : Z) :
  (duration <= 1800)%Z ->
  expired (Database.base (store_ab access_level duration)) (world_ab clock_lapse).
Proof.
  intros H. eexists. split; [reflexivity|].
  unfold now, world_ab, clock_lapse, Qlt. simpl. lia.
Qed.

(** ** The claims on the store *)

(** C6 as stated fails: a store constructed while the clock jumps past
    the session holds no mapping; once its session is started again it is
    live, and [view] raises [AttributeError]. *)
Lemma C6_counterexample :
  match Database.__init__ "admin" "db.txt" (world_at clock_lapse 1 text_ab) with
  | (Ok db0, w0) =>
      let (db, w) := run_store_calls [StartSession] db0 w0 in
      live (Database.base db) w /\
      outcome (Database.view "a" db w) = Raise (AttributeError "get")
  | _ => False
  end.
Proof.
  vm_compute. split; [|reflexivity].
  eexists. split; [reflexivity|]. vm_compute. discriminate.
Qed.

(** C6, amended.  On a store with a live session that holds a mapping (its
    load was not refused), [view(key)] returns the value stored under
    [key] when there is one and the string ["Key does not exist"] when
    there is none; it raises nothing and leaves the store as it is. *)
Theorem C6_view_value_or_sentinel
    (db : Database.t) (w : World) (d : dict) (key : string) :
  live (Database.base db) w ->
  Database._database db = Some d ->
  (forall v, dict_lookup key d = Some v ->
             outcome (Database.view key db w) = Ok (Some v)) /\
  (dict_lookup key d = None ->
   outcome (Database.view key db w) = Ok (Some "Key does not exist")) /\
  (forall e, outcome (Database.view key db w) <> Raise e) /\
  object (Database.view key db w) = db.
Proof.
  intros L D. rewrite (view_live db w d key L D).
  unfold outcome, object, dict_get. simpl.
  split; [|split; [|split]].
  - intros v E. rewrite E. reflexivity.
  - intros E. rewrite E. reflexivity.
  - intros e. discriminate.
  - reflexivity.
Qed.

Lemma C6_view_witness :
  outcome (Database.view "a" (store_ab "user" 1800) (world_ab clock_1s))
    = Ok (Some "1") /\
  outcome (Database.view "b" (store_ab "user" 1800) (world_ab clock_1s))
    = Ok (Some "2") /\
  outcome (Database.view "z" (store_ab "user" 1800) (world_ab clock_1s))
    = Ok (Some "Key does not exist").
Proof.
  assert (L := live_store_ab_1s "user" 1800 ltac:(lia)).
  split; [|split].
  - apply (C6_view_value_or_sentinel _ _ _ "a" L eq_refl). reflexivity.
  - apply (C6_view_value_or_sentinel _ _ _ "b" L eq_refl). reflexivity.
  - apply (C6_view_value_or_sentinel _ _ _ "z" L eq_refl). reflexivity.
Defined.

(** C5 as stated fails: on an ["admin"] store that holds no mapping (it
    was constructed while the clock jumped past the session) and whose
    session was started again, [modify] raises [TypeError] and inserts
    nothing. *)
Lemma C5_counterexample :
  match Database.__init__ "admin" "db.txt" (world_at clock_lapse 1 text_ab) with
  | (Ok db0, w0) =>
      let (db, w) := run_store_calls [StartSession] db0 w0 in
      live (Database.base db) w /\
      Database._access_level db = "admin" /\
      outcome (Database.modify "a" "9" db w)
        = Raise (TypeError "'NoneType' object does not support item assignment") /\
      Database._database (object (Database.modify "a" "9" db w)) = None
  | _ => False
  end.
Proof.
  vm_compute. split; [|repeat split; reflexivity].
  eexists. split; [reflexivity|]. vm_compute. discriminate.
Qed.

(** C5, amended.  On a store with a live session, [modify(key, value)]
    raises [PermissionError] and leaves the store as it is when the access
    level is not ["admin"]; on an ["admin"] store that holds a mapping (its
    load was not refused) it sets [key] to [value] in the mapping, keeps
    the other keys, and neither opens nor changes a file. *)
Theorem C5_modify_role_gated
    (db : Database.t) (w : World) (key value : string) :
  live (Database.base db) w ->
  (Database._access_level db <> "admin" ->
   outcome (Database.modify key value db w)
     = Raise (PermissionError "Only admins can modify the database.") /\
   object (Database.modify key value db w) = db) /\
  (Database._access_level db = "admin" ->
   forall d, Database._database db = Some d ->
   exists d',
     outcome (Database.modify key value db w) = Ok tt /\
     Database._database (object (Database.modify key value db w)) = Some d' /\
     dict_lookup key d' = Some value /\
     (forall k, k <> key -> dict_lookup k d' = dict_lookup k d) /\
     fs (world (Database.modify key value db w)) = fs w /\
     opened (world (Database.modify key value db w)) = opened w).
Proof.
  intros L. split.
  - intros N. rewrite (modify_live_not_admin db w key value L N).
    split; reflexivity.
  - intros A d D. rewrite (modify_live_admin db w d key value L A D).
    exists (dict_setitem key value d).
    split; [reflexivity|]. split; [reflexivity|].
    split; [apply dict_lookup_setitem_eq|].
    split; [|split; reflexivity].
    intros k N. apply dict_lookup_setitem_ne. exact N.
Qed.

Lemma C5_modify_witness :
  (outcome (Database.modify "a" "9" (store_ab "user" 1800) (world_ab clock_1s))
     = Raise (PermissionError "Only admins can modify the database.") /\
   object (Database.modify "a" "9" (store_ab "user" 1800) (world_ab clock_1s))
     = store_ab "user" 1800) /\
  exists d',
    outcome (Database.modify "a" "9" (store_ab "admin" 900) (world_ab clock_1s))
      = Ok tt /\
    Database._database
      (object (Database.modify "a" "9" (store_ab "admin" 900) (world_ab clock_1s)))
      = Some d' /\
    dict_lookup "a" d' = Some "9" /\
    (forall k, k <> "a" ->
               dict_lookup k d' = dict_lookup k [("a", "1"); ("b", "2")]) /\
    fs (world (Database.modify "a" "9" (store_ab "admin" 900) (world_ab clock_1s)))
      = fs (world_ab clock_1s) /\
    opened (world (Database.modify "a" "9" (store_ab "admin" 900) (world_ab clock_1s)))
      = opened (world_ab clock_1s).
Proof.
  split.
  - apply (C5_modify_role_gated (store_ab "user" 1800) (world_ab clock_1s)
             "a" "9" (live_store_ab_1s "user" 1800 ltac:(lia))).
    simpl. discriminate.
  - apply (C5_modify_role_gated (store_ab "admin" 900) (world_ab clock_1s)
             "a" "9" (live_store_ab_1s "admin" 900 ltac:(lia)));
      reflexivity.
Defined.

(** C8.  Constructing a store with an access level other than ["user"] and
    ["admin"] raises [ValueError]; the session has no duration and no
    expiry (it was not started), and the world is as before: the clock was
    not read, no file was opened, nothing was printed. *)
Theorem C8_invalid_access_level
    (access_level database_path : string) (w : World) :
  access_level <> "user" -> access_level <> "admin" ->
  Database.__init__ access_level database_path w
    = (Raise (ValueError ("Invalid access level: " ++ access_level)), w) /\
  Database._login access_level Session.blank w
    = (Raise (ValueError ("Invalid access level: " ++ access_level)),
       Session.blank, w).
Proof.
  intros U A. apply String.eqb_neq in U. apply String.eqb_neq in A.
  assert (E : Database._login access_level Session.blank w
              = (Raise (ValueError ("Invalid access level: " ++ access_level)),
                 Session.blank, w)).
  { unfold Database._login, bind. rewrite U, A. reflexivity. }
  split; [|exact E].
  unfold Database.__init__. rewrite E. reflexivity.
Qed.

Lemma C8_superuser_witness :
  Database.__init__ "superuser" "db.txt" (world0 clock_1s text_ab)
    = (Raise (ValueError "Invalid access level: superuser"),
       world0 clock_1s text_ab) /\
  Database._login "superuser" Session.blank (world0 clock_1s text_ab)
    = (Raise (ValueError "Invalid access level: superuser"),
       Session.blank, world0 clock_1s text_ab).
Proof.
  apply (C8_invalid_access_level "superuser" "db.txt"
           (world0 clock_1s text_ab)); discriminate.
Defined.

(** C9.  On a store whose session has expired, [view], [modify] and
    [_load] return [None], no exception leaves them, and the store (with
    its mapping) is as before; the [None] that [view] returns is not the
    string returned for a missing key. *)
Theorem C9_expired_returns_none
    (db : Database.t) (w : World) (key value path : string) (flush : bool) :
  expired (Database.base db) w ->
  (outcome (Database.view key db w) = Ok None /\
   object (Database.view key db w) = db) /\
  (outcome (Database.modify key value db w) = Ok tt /\
   object (Database.modify key value db w) = db) /\
  (outcome (Database._load path flush (Database.base db) w) = Ok None /\
   object (Database._load path flush (Database.base db) w) = Database.base db) /\
  outcome (Database.view key db w) <> Ok (Some "Key does not exist").
Proof.
  intros X.
  destruct (view_expired db w key X) as (w1 & E1 & _).
  destruct (modify_expired db w key value X) as (w2 & E2 & _).
  destruct (load_expired (Database.base db) w path flush X) as (w3 & E3 & _).
  rewrite E1, E2, E3. unfold outcome, object. simpl.
  repeat split; try reflexivity. discriminate.
Qed.

Lemma C9_expired_witness :
  (outcome (Database.view "a" (store_ab "user" 1800) (world_ab clock_lapse))
     = Ok None /\
   object (Database.view "a" (store_ab "user" 1800) (world_ab clock_lapse))
     = store_ab "user" 1800) /\
  (outcome (Database.modify "a" "9" (store_ab "user" 1800) (world_ab clock_lapse))
     = Ok tt /\
   object (Database.modify "a" "9" (store_ab "user" 1800) (world_ab clock_lapse))
     = store_ab "user" 1800) /\
  (outcome (Database._load "db.txt" false
              (Database.base (store_ab "user" 1800)) (world_ab clock_lapse))
     = Ok None /\
   object (Database._load "db.txt" false
             (Database.base (store_ab "user" 1800)) (world_ab clock_lapse))
     = Database.base (store_ab "user" 1800)) /\
  outcome (Database.view "a" (store_ab "user" 1800) (world_ab clock_lapse))
    <> Ok (Some "Key does not exist").
Proof.
  apply (C9_expired_returns_none (store_ab "user" 1800) (world_ab clock_lapse)
           "a" "9" "db.txt" false).
  exists (1000 + inject_Z 1800)%Q. split; [reflexivity|].
  vm_compute. reflexivity.
Defined.

(** C1 as stated fails: on a store whose session has expired, [view]
    raises nothing. *)
Lemma C1_counterexample :
  expired (Database.base (store_ab "user" 1800)) (world_ab clock_lapse) /\
  ~ exists e,
      outcome (Database.view "a" (store_ab "user" 1800) (world_ab clock_lapse))
        = Raise e.
Proof.
  split.
  - apply expired_store_ab_lapse. lia.
  - intros [e E]. vm_compute in E. discriminate.
Qed.

(** C1, amended.  On a store whose session has expired, [view], [modify]
    and [_load] catch the [ValueError] of [require_session]: none of them
    raises, and each prints the line
    ["Your session has expired. Please login again."] and nothing else. *)
Theorem C1_expired_caught_and_printed
    (db : Database.t) (w : World) (key value path : string) (flush : bool) :
  expired (Database.base db) w ->
  ((forall e, outcome (Database.view key db w) <> Raise e) /\
   stdout (world (Database.view key db w))
     = stdout w ++ [Database.expired_notice]) /\
  ((forall e, outcome (Database.modify key value db w) <> Raise e) /\
   stdout (world (Database.modify key value db w))
     = stdout w ++ [Database.expired_notice]) /\
  ((forall e, outcome (Database._load path flush (Database.base db) w)
              <> Raise e) /\
   stdout (world (Database._load path flush (Database.base db) w))
     = stdout w ++ [Database.expired_notice]).
Proof.
  intros X.
  destruct (view_expired db w key X) as (w1 & E1 & _ & _ & S1).
  destruct (modify_expired db w key value X) as (w2 & E2 & _ & _ & S2).
  destruct (load_expired (Database.base db) w path flush X)
    as (w3 & E3 & _ & _ & S3).
  rewrite E1, E2, E3. unfold outcome, world. simpl.
  rewrite S1, S2, S3.
  repeat split; try reflexivity; intros e; discriminate.
Qed.

Lemma C1_expired_witness :
  ((forall e, outcome (Database.view "a" (store_ab "user" 1800)
                         (world_ab clock_lapse)) <> Raise e) /\
   stdout (world (Database.view "a" (store_ab "user" 1800)
                    (world_ab clock_lapse)))
     = stdout (world_ab clock_lapse) ++ [Database.expired_notice]) /\
  ((forall e, outcome (Database.modify "a" "9" (store_ab "user" 1800)
                         (world_ab clock_lapse)) <> Raise e) /\
   stdout (world (Database.modify "a" "9" (store_ab "user" 1800)
                    (world_ab clock_lapse)))
     = stdout (world_ab clock_lapse) ++ [Database.expired_notice]) /\
  ((forall e, outcome (Database._load "db.txt" false
                         (Database.base (store_ab "user" 1800))
                         (world_ab clock_lapse)) <> Raise e) /\
   stdout (world (Database._load "db.txt" false
                    (Database.base (store_ab "user" 1800))
                    (world_ab clock_lapse)))
     = stdout (world_ab clock_lapse) ++ [Database.expired_notice]).
Proof.
  apply (C1_expired_caught_and_printed (store_ab "user" 1800)
           (world_ab clock_lapse) "a" "9" "db.txt" false).
  exists (1000 + inject_Z 1800)%Q. split; [reflexivity|].
  vm_compute. reflexivity.
Defined.

(** ** Reading the backing file *)

Lemma split_length (line : string) :
  length (split colon line) = S (colons line).
Proof.
  induction line as [|c r IH]; simpl; [reflexivity|].
  destruct (Ascii.eqb c colon); simpl; [rewrite IH; reflexivity|].
  destruct (split colon r); simpl in *; [discriminate|exact IH].
Qed.

Lemma split_no_colon (line : string) :
  colons line = 0%nat -> split colon line = [line].
Proof.
  induction line as [|c r IH]; simpl; [reflexivity|].
  destruct (Ascii.eqb c colon); [discriminate|].
  intros H. rewrite (IH H). reflexivity.
Qed.

(** On a line with exactly one colon, [split] and the split at the first
    colon agree. *)
Lemma split_one_colon (line : string) :
  colons line = 1%nat ->
  exists k v, split colon line = [k; v] /\
              spec_split_first_colon line = Some (k, v).
Proof.
  induction line as [|c r IH]; simpl; [discriminate|].
  destruct (Ascii.eqb c colon).
  - intros H. injection H as H. exists EmptyString, r.
    rewrite (split_no_colon r H). split; reflexivity.
  - intros H. destruct (IH H) as (k & v & E1 & E2).
    exists (String c k), v. rewrite E1, E2. split; reflexivity.
Qed.

Lemma load_lines_bad_line (line : string) (rest : list string) (acc : dict) :
  colons line <> 1%nat ->
  exists msg, Database.load_lines (line :: rest) acc = Raise (ValueError msg).
Proof.
  intros H. pose proof (split_length line) as L. simpl.
  destruct (split colon line) as [|p1 [|p2 [|p3 ps]]]; simpl in L.
  - eexists. reflexivity.
  - eexists. reflexivity.
  - exfalso. apply H. lia.
  - eexists. reflexivity.
Qed.

(** Lines with one colon each: the loop ends with a dictionary in which
    every key has the value of its last line, and the keys of no line keep
    the value they had. *)
Lemma load_lines_one_colon (lines : list string) :
  Forall (fun line => colons line = 1%nat) lines ->
  forall acc, exists d,
    Database.load_lines lines acc = Ok d /\
    forall key, dict_lookup key d =
                match spec_value key lines with
                | Some v => Some v
                | None => dict_lookup key acc
                end.
Proof.
  induction 1 as [|line rest H _ IH]; intros acc.
  - exists acc. split; [reflexivity|]. intros key. reflexivity.
  - destruct (split_one_colon line H) as (k & v & E1 & E2).
    destruct (IH (dict_setitem k (strip v) acc)) as (d & Ed & Hd).
    exists d. simpl. rewrite E1. split; [exact Ed|].
    intros key. rewrite Hd, E2.
    destruct (spec_value key rest); [reflexivity|].
    destruct (String.eqb key k) eqn:K.
    + apply String.eqb_eq in K. subst k. apply dict_lookup_setitem_eq.
    + apply String.eqb_neq in K. apply dict_lookup_setitem_ne. exact K.
Qed.

(** A line without exactly one colon makes the loop raise [ValueError]. *)
Lemma load_lines_some_bad_line (lines : list string) :
  Exists (fun line => colons line <> 1%nat) lines ->
  forall acc, exists msg,
    Database.load_lines lines acc = Raise (ValueError msg).
Proof.
  induction lines as [|line rest IH]; intros H acc.
  - inversion H.
  - destruct (Nat.eq_dec (colons line) 1) as [E|N].
    + destruct (split_one_colon line E) as (k & v & E1 & _).
      simpl. rewrite E1. apply IH.
      inversion H as [? ? B|? ? B]; subst; [contradiction|exact B].
    + apply load_lines_bad_line. exact N.
Qed.

(** C3 as stated fails: for the line [k:v:w] the split at the first colon
    gives the value [v:w] to [k], and [_load] raises [ValueError]. *)
Lemma C3_counterexample :
  live session_1s (tick (world0 clock_1s text_kvw)) /\
  spec_value "k" (readlines text_kvw) = Some "v:w" /\
  outcome (Database._load "db.txt" false session_1s
             (tick (world0 clock_1s text_kvw)))
    = Raise (ValueError "too many values to unpack (expected 2)") /\
  fst (constructed "user" clock_1s text_kvw)
    = Raise (ValueError "too many values to unpack (expected 2)").
Proof.
  split; [|split; [|split]]; try (vm_compute; reflexivity).
  eexists. split; [reflexivity|]. vm_compute. discriminate.
Qed.

(** C3, amended.  [_load] on a live session reads the file line by line.
    When every line has exactly one colon, it returns a dictionary in which
    each key (the text before the colon) has the trimmed text after the
    colon of the last line with that key.  When some line has no colon or
    more than one, it raises [ValueError]. *)
Theorem C3_load_lines_with_one_colon
    (s : Session.t) (w : World) (path text : string) (flush : bool) :
  live s w ->
  fs w !! path = Some text ->
  (Forall (fun line => colons line = 1%nat) (readlines text) ->
   exists d,
     outcome (Database._load path flush s w) = Ok (Some d) /\
     forall key, dict_lookup key d = spec_value key (readlines text)) /\
  (Exists (fun line => colons line <> 1%nat) (readlines text) ->
   exists msg,
     outcome (Database._load path flush s w) = Raise (ValueError msg)).
Proof.
  intros L F. rewrite (load_live s w path text flush L F). split.
  - intros H.
    destruct (load_lines_one_colon (readlines text) H []) as (d & E & Hd).
    exists d. rewrite E. split; [reflexivity|].
    intros key. rewrite Hd. destruct (spec_value key (readlines text)); reflexivity.
  - intros H.
    destruct (load_lines_some_bad_line (readlines text) H []) as (msg & E).
    exists msg. rewrite E. reflexivity.
Qed.

Lemma C3_load_witness :
  (exists d,
     outcome (Database._load "db.txt" false session_1s
                (tick (world0 clock_1s text_dup))) = Ok (Some d) /\
     forall key, dict_lookup key d = spec_value key (readlines text_dup)) /\
  (exists msg,
     outcome (Database._load "db.txt" false session_1s
                (tick (world0 clock_1s text_kvw))) = Raise (ValueError msg)).
Proof.
  split.
  - apply (C3_load_lines_with_one_colon session_1s
             (tick (world0 clock_1s text_dup)) "db.txt" text_dup false).
    + exists (1000 + inject_Z 1800)%Q. split; [reflexivity|].
      vm_compute. discriminate.
    + reflexivity.
    + repeat constructor.
  - apply (C3_load_lines_with_one_colon session_1s
             (tick (world0 clock_1s text_kvw)) "db.txt" text_kvw false).
    + exists (1000 + inject_Z 1800)%Q. split; [reflexivity|].
      vm_compute. discriminate.
    + reflexivity.
    + constructor. vm_compute. discriminate.
Defined.

(** Lines end at a line feed, a carriage return or both. *)
Example readlines_universal_newlines :
  readlines ("a:1" ++ String carriage_return (String newline
             ("b:2" ++ String carriage_return "c:3")))
    = [text_line "a:1"; text_line "b:2"; "c:3"].
Proof. reflexivity. Qed.

(** The last line of a key wins, and its value is trimmed. *)
Example load_text_dup :
  outcome (Database._load "db.txt" false session_1s
             (tick (world0 clock_1s text_dup)))
    = Ok (Some [("a", "3"); ("b", "2")]).
Proof. vm_compute. reflexivity. Qed.

(** ** Writing the backing file *)

Lemma append_assoc (a b c : string) : ((a ++ b) ++ c = a ++ (b ++ c))%string.
Proof.
  induction a as [|x a IH]; [reflexivity|].
  change (String x ((a ++ b) ++ c) = String x (a ++ (b ++ c)))%string.
  rewrite IH. reflexivity.
Qed.

Lemma append_nil_r (a : string) : (a ++ EmptyString)%string = a.
Proof.
  induction a as [|x a IH]; [reflexivity|].
  change (String x (a ++ EmptyString) = String x a)%string.
  rewrite IH. reflexivity.
Qed.

Lemma f_write_appends {St} (path text cur : string) (s : St) (w : World) :
  fs w !! path = Some cur ->
  f_write path text s w
    = (Ok tt, s, set_fs (<[path := (cur ++ text)%string]> (fs w)) w).
Proof. intros H. unfold f_write. rewrite H. reflexivity. Qed.

Lemma logout_loop_writes (db : Database.t) (d : dict) (path : string)
    (items : dict) :
  Database._database db = Some d ->
  (forall k v, In (k, v) items -> dict_lookup k d = Some v) ->
  forall (w : World) (cur : string),
  fs w !! path = Some cur ->
  Database.logout_loop path (dict_keys items) db w
    = (Ok tt, db, set_fs (<[path := (cur ++ written items)%string]> (fs w)) w).
Proof.
  intros D. induction items as [|[k v] r IH]; intros Hl w cur F.
  - change (written []) with EmptyString. rewrite append_nil_r.
    rewrite (insert_id _ _ _ F). destruct w; reflexivity.
  - simpl. unfold bind at 1. rewrite (f_write_appends path k cur db w F).
    unfold bind at 1. erewrite f_write_appends
      by (simpl; apply lookup_insert_eq).
    unfold bind at 1. unfold Database.the_dict at 1. rewrite D.
    rewrite (Hl k v (or_introl eq_refl)).
    unfold bind at 1. erewrite f_write_appends
      by (simpl; apply lookup_insert_eq).
    rewrite (IH (fun k' v' H => Hl k' v' (or_intror H)) _
               (((cur ++ k) ++ ":") ++ v)%string)
      by (simpl; apply lookup_insert_eq).
    simpl. rewrite !insert_insert_eq. rewrite !append_assoc. reflexivity.
Qed.

(** With distinct keys, every item is what a lookup of its key finds. *)
Lemma dict_lookup_item (d : dict) :
  NoDup (dict_keys d) ->
  forall k v, In (k, v) d -> dict_lookup k d = Some v.
Proof.
  induction d as [|[k0 v0] r IH]; intros N k v H; [inversion H|].
  simpl in N. inversion N as [|? ? Hn Hr]; subst. simpl.
  destruct H as [H|H].
  - injection H as -> ->. rewrite String.eqb_refl. reflexivity.
  - destruct (String.eqb k k0) eqn:E.
    + apply String.eqb_eq in E. subst k0. exfalso. apply Hn.
      apply list_elem_of_In, List.in_map_iff.
      exists (k, v). split; [reflexivity|exact H].
    + apply IH; assumption.
Qed.

(** [logout] expires the session and replaces the text of the backing file
    by [written d]: the items follow each other with no line break. *)
Lemma logout_writes (db : Database.t) (w : World) (d : dict) :
  Database._database db = Some d ->
  NoDup (dict_keys d) ->
  exists db',
    Database.logout db w
      = (Ok tt, db',
         set_fs (<[Database._database_path db := written d]> (fs w))
           (log_open (Database._database_path db) (tick w))) /\
    Database._database db' = Some d /\
    Session._session_expiry (Database.base db') = Some (now w).
Proof.
  intros D N.
  exists (Database.mk
            (Session.mk (Session._session_duration (Database.base db))
               (Some (now w)))
            (Database._database db) (Database._access_level db)
            (Database._database_path db)).
  split; [|split; [exact D|reflexivity]].
  unfold Database.logout.
  unfold bind at 1. unfold Database.super, Session.expire_session, bind,
    time_time, Session.setattr_expiry, Database.getattr_database_path,
    open_w, Database.the_dict. simpl. rewrite D.
  erewrite logout_loop_writes with (d := d) (cur := EmptyString).
  - simpl. rewrite insert_insert_eq. reflexivity.
  - reflexivity.
  - apply dict_lookup_item. exact N.
  - simpl. apply lookup_insert_eq.
Qed.

(** C2 (the code departs from the claim).  An ["admin"] store is
    constructed over the text [a:1\nb:2\n]; after [modify("a", "9")] and
    [logout()] the backing file holds [a:9b:2] on one line, and constructing
    the store again raises [ValueError] in [_load]: [logout] writes no line
    break between the items, so what it writes is not read back. *)
Theorem C2_logout_writes_no_line_breaks :
  let r1 := Database.modify "a" "9" (store_ab "admin" 900) (world_ab clock_1s) in
  let r2 := Database.logout (object r1) (world r1) in
  outcome r1 = Ok tt /\
  Database._database (object r1) = Some [("a", "9"); ("b", "2")] /\
  outcome r2 = Ok tt /\
  fs (world r2) !! "db.txt" = Some "a:9b:2" /\
  fst (Database.__init__ "admin" "db.txt" (world r2))
    = Raise (ValueError "too many values to unpack (expected 2)").
Proof. vm_compute. repeat split; reflexivity. Qed.

(** A mapping of one item is read back. *)
Example logout_one_item_read_back :
  match constructed "admin" clock_1s text_a with
  | (Ok db, w) =>
      let r1 := Database.modify "a" "9" db w in
      let r2 := Database.logout (object r1) (world r1) in
      fs (world r2) !! "db.txt" = Some "a:9" /\
      match Database.__init__ "admin" "db.txt" (world r2) with
      | (Ok db', w') => outcome (Database.view "a" db' w') = Ok (Some "9")
      | _ => False
      end
  | _ => False
  end.
Proof. vm_compute. split; reflexivity. Qed.

(** * Further properties of the session *)

(** [int] is monotone and is the identity on integers. *)
Lemma int_le_mono (x y : Q) : (x <= y)%Q -> (int x <= int y)%Z.
Proof.
  destruct x as [a b], y as [c d]. unfold Qle, int. simpl. intros H.
  rewrite <- (Z.quot_mul_cancel_r a (Z.pos b) (Z.pos d)) by lia.
  rewrite <- (Z.quot_mul_cancel_r c (Z.pos d) (Z.pos b)) by lia.
  rewrite (Z.mul_comm (Z.pos d) (Z.pos b)).
  apply Z.quot_le_mono; lia.
Qed.

Lemma int_inject_Z (n : Z) : int (inject_Z n) = n.
Proof. unfold int. simpl. apply Z.quot_1_r. Qed.

(** Whatever its state, [require_session] leaves the session, the files
    and the output as they are, and raises nothing but [ValueError]. *)
Lemma require_session_frame (s : Session.t) (w : World) :
  exists r w',
    Session.require_session s w = (r, s, w') /\
    (r = Ok tt \/ exists msg, r = Raise (ValueError msg)) /\
    clock w' = clock w /\ fs w' = fs w /\ opened w' = opened w /\
    stdout w' = stdout w.
Proof.
  destruct (Session._session_expiry s) as [e|] eqn:E.
  - destruct (Qgtb (now w) e) eqn:G.
    + assert (X : expired s w).
      { exists e. split; [exact E|]. apply Qgtb_true. exact G. }
      unfold Session.require_session, bind.
      rewrite (has_expired_started s w e E), G.
      rewrite (time_since_expiry_started s (tick w) e E).
      destruct (Qgtb (now (tick w)) e); eexists; eexists;
        (split; [reflexivity|]); (split; [right; eexists; reflexivity|]);
        repeat split; reflexivity.
    + assert (L : live s w).
      { exists e. split; [exact E|]. apply Qgtb_false. exact G. }
      rewrite (require_session_live s w L). eexists. eexists.
      split; [reflexivity|]. split; [left; reflexivity|].
      repeat split; reflexivity.
  - rewrite (require_session_unset s w E). eexists. eexists.
    split; [reflexivity|]. split; [right; eexists; reflexivity|].
    repeat split; reflexivity.
Qed.

(** A query changes neither the session nor the files nor the output. *)
Lemma perform_query_frame (c : call) (s : Session.t) (w : World) :
  c <> Start -> c <> Expire ->
  fst (perform c s w) = s /\
  clock (snd (perform c s w)) = clock w /\
  fs (snd (perform c s w)) = fs w /\
  opened (snd (perform c s w)) = opened w /\
  stdout (snd (perform c s w)) = stdout w.
Proof.
  intros H1 H2. destruct c; try congruence; simpl; unfold after, object, world.
  - destruct (Session._session_expiry s) as [e|] eqn:E.
    + rewrite (has_expired_started _ _ e E). repeat split; reflexivity.
    + rewrite (has_expired_unset _ _ E). repeat split; reflexivity.
  - destruct (Session._session_expiry s) as [e|] eqn:E.
    + rewrite (time_until_expiry_started _ _ e E).
      destruct (Qgtb (now w) e); repeat split; reflexivity.
    + rewrite (time_until_expiry_unset _ _ E). repeat split; reflexivity.
  - destruct (Session._session_expiry s) as [e|] eqn:E.
    + rewrite (time_since_expiry_started _ _ e E).
      destruct (Qgtb (now w) e); repeat split; reflexivity.
    + rewrite (time_since_expiry_unset _ _ E). repeat split; reflexivity.
  - destruct (require_session_frame s w) as (r & w' & E & _ & F).
    rewrite E. simpl. split; [reflexivity|exact F].
Qed.

(** X4.  The three queries and [require_session] are read-only: in every
    state of the session, whether they return or raise, the session object
    is as before, no file is opened or changed and nothing is printed. *)
Theorem queries_are_read_only (s : Session.t) (w : World) :
  (object (Session.has_expired s w) = s /\
   fs (world (Session.has_expired s w)) = fs w /\
   opened (world (Session.has_expired s w)) = opened w /\
   stdout (world (Session.has_expired s w)) = stdout w) /\
  (object (Session.time_until_expiry s w) = s /\
   fs (world (Session.time_until_expiry s w)) = fs w /\
   opened (world (Session.time_until_expiry s w)) = opened w /\
   stdout (world (Session.time_until_expiry s w)) = stdout w) /\
  (object (Session.time_since_expiry s w) = s /\
   fs (world (Session.time_since_expiry s w)) = fs w /\
   opened (world (Session.time_since_expiry s w)) = opened w /\
   stdout (world (Session.time_since_expiry s w)) = stdout w) /\
  (object (Session.require_session s w) = s /\
   fs (world (Session.require_session s w)) = fs w /\
   opened (world (Session.require_session s w)) = opened w /\
   stdout (world (Session.require_session s w)) = stdout w).
Proof.
  pose proof (perform_query_frame HasExpired s w) as H1.
  pose proof (perform_query_frame TimeUntilExpiry s w) as H2.
  pose proof (perform_query_frame TimeSinceExpiry s w) as H3.
  pose proof (perform_query_frame RequireSession s w) as H4.
  simpl in H1, H2, H3, H4. unfold after in *. simpl in *.
  split; [|split; [|split]].
  - destruct H1 as (A & _ & B); [discriminate|discriminate|]. split; assumption.
  - destruct H2 as (A & _ & B); [discriminate|discriminate|]. split; assumption.
  - destruct H3 as (A & _ & B); [discriminate|discriminate|]. split; assumption.
  - destruct H4 as (A & _ & B); [discriminate|discriminate|]. split; assumption.
Qed.

Lemma perform_keeps_duration (c : call) (s : Session.t) (w : World) :
  Session._session_duration (fst (perform c s w)) = Session._session_duration s.
Proof.
  assert (Q : c <> Start -> c <> Expire ->
              Session._session_duration (fst (perform c s w))
              = Session._session_duration s).
  { intros H1 H2. destruct (perform_query_frame c s w H1 H2) as [E _].
    rewrite E. reflexivity. }
  destruct c; try (apply Q; discriminate).
  - simpl. unfold after, object.
    destruct (Session._session_duration s) as [d|] eqn:D.
    + rewrite (start_session_sets_expiry s w d D). reflexivity.
    + unfold Session.start_session, bind, time_time, Session.getattr_duration.
      simpl. rewrite D. simpl. exact D.
  - reflexivity.
Qed.

(** X9.  The duration given to the constructor is never changed: after
    any history of calls the session has the duration it had. *)
Theorem duration_is_immutable (cs : list call) (s : Session.t) (w : World) :
  Session._session_duration (fst (run cs s w)) = Session._session_duration s.
Proof.
  revert s w. induction cs as [|c cs IH]; intros s w; [reflexivity|].
  simpl. destruct (perform c s w) as [s' w'] eqn:P.
  rewrite IH. change s' with (fst (s', w')). rewrite <- P.
  apply perform_keeps_duration.
Qed.

(** X1.  [start_session] restarts the session from any state: when the
    duration and its sum with the clock reading are float values (so that
    the program adds them exactly), the expiry becomes the reading plus
    the duration, whatever it was before (durations do not add up), and
    while the clock has not passed it the session is live: [has_expired]
    is [False], [time_since_expiry] is [0] and [require_session]
    returns. *)
Theorem start_session_restarts (s : Session.t) (w : World) (d : Z) :
  Session._session_duration s = Some d ->
  binary64 (inject_Z d) ->
  binary64 (now w + inject_Z d) ->
  (clock w (S (ticks w)) <= clock w (ticks w) + inject_Z d)%Q ->
  let r := Session.start_session s w in
  outcome r = Ok tt /\
  Session._session_expiry (object r) = Some (now w + inject_Z d)%Q /\
  outcome (Session.has_expired (object r) (world r)) = Ok false /\
  outcome (Session.time_since_expiry (object r) (world r)) = Ok 0%Z /\
  outcome (Session.require_session (object r) (world r)) = Ok tt.
Proof.
  intros D _ _ H r. subst r. rewrite (start_session_sets_expiry s w d D).
  unfold outcome, object, world. cbn [fst snd].
  assert (G : Qgtb (now (tick w)) (now w + inject_Z d) = false).
  { apply Qgtb_false. exact H. }
  split; [reflexivity|]. split; [reflexivity|].
  set (s1 := Session.mk (Some d) (Some (now w + inject_Z d)%Q)).
  rewrite (has_expired_started s1 (tick w) _ eq_refl),
    (time_since_expiry_started s1 (tick w) _ eq_refl), G.
  rewrite (require_session_live s1 (tick w)).
  - repeat split; reflexivity.
  - eexists. split; [reflexivity|]. exact H.
Qed.

(** A session that expired long ago, restarted on the one-second clock. *)
Lemma start_session_restarts_witness :
  let r := Session.start_session (Session.mk (Some 5%Z) (Some 0%Q))
             (world0 clock_1s EmptyString) in
  outcome r = Ok tt /\
  Session._session_expiry (object r)
    = Some (now (world0 clock_1s EmptyString) + inject_Z 5)%Q /\
  outcome (Session.has_expired (object r) (world r)) = Ok false /\
  outcome (Session.time_since_expiry (object r) (world r)) = Ok 0%Z /\
  outcome (Session.require_session (object r) (world r)) = Ok tt.
Proof.
  apply (start_session_restarts (Session.mk (Some 5%Z) (Some 0%Q))
           (world0 clock_1s EmptyString) 5%Z).
  - reflexivity.
  - exists 5%Z, 0%Z. split; [reflexivity|]. split; [lia|reflexivity].
  - exists 1005%Z, 0%Z. split; [reflexivity|]. split; [lia|reflexivity].
  - vm_compute. discriminate.
Defined.

(** X2.  After [start_session] with duration [d], when the duration, the
    expiry and the time left are float values (so that the program
    computes them exactly) and the clock does not run backwards,
    [time_until_expiry] is at most [d] (and [0] for a negative [d]); when
    moreover [d] is at least one second and less than a second has passed
    since the start, it is [d] or [d - 1]. *)
Theorem time_until_expiry_after_start (s : Session.t) (w : World) (d : Z) :
  Session._session_duration s = Some d ->
  binary64 (inject_Z d) ->
  binary64 (now w + inject_Z d) ->
  binary64 (now w + inject_Z d - clock w (S (S (ticks w)))) ->
  (clock w (ticks w) <= clock w (S (ticks w)))%Q ->
  (clock w (S (ticks w)) <= clock w (S (S (ticks w))))%Q ->
  let r := Session.start_session s w in
  exists u,
    outcome (Session.time_until_expiry (object r) (world r)) = Ok u /\
    (u <= Z.max 0 d)%Z /\
    ((1 <= d)%Z ->
     (clock w (S (S (ticks w))) < clock w (ticks w) + 1)%Q ->
     (d - 1 <= u)%Z).
Proof.
  intros D _ _ _ H1 H2 r. subst r.
  rewrite (start_session_sets_expiry s w d D).
  unfold outcome, object, world. cbn [fst snd].
  set (s1 := Session.mk (Some d) (Some (now w + inject_Z d)%Q)).
  rewrite (time_until_expiry_started s1 (tick w) _ eq_refl).
  unfold now. cbn [clock ticks tick].
  set (t0 := clock w (ticks w)) in *.
  set (t1 := clock w (S (ticks w))) in *.
  set (t2 := clock w (S (S (ticks w)))) in *.
  destruct (Qgtb t1 (t0 + inject_Z d)) eqn:G.
  - apply Qgtb_true in G. exists 0%Z. split; [reflexivity|]. split; [lia|].
    intros Hd Hs. exfalso.
    assert (1 <= inject_Z d)%Q by (unfold Qle; simpl; lia). lra.
  - apply Qgtb_false in G. exists (int (t0 + inject_Z d - t2)).
    split; [reflexivity|]. split.
    + assert (int (t0 + inject_Z d - t2) <= d)%Z; [|lia].
      rewrite <- (int_inject_Z d) at 2. apply int_le_mono. lra.
    + intros Hd Hs. rewrite <- (int_inject_Z (d - 1)). apply int_le_mono.
      assert (E : (inject_Z (d - 1) == inject_Z d - 1)%Q).
      { unfold Z.sub. rewrite inject_Z_plus. reflexivity. }
      rewrite E. lra.
Qed.

(** A session of five seconds on the half-second clock: 4 seconds left. *)
Lemma time_until_expiry_after_start_witness :
  let r := Session.start_session (Session.new 5)
             (world0 clock_half_s EmptyString) in
  exists u,
    outcome (Session.time_until_expiry (object r) (world r)) = Ok u /\
    (u <= Z.max 0 5)%Z /\
    ((1 <= 5)%Z ->
     (clock_half_s 2 < clock_half_s 0 + 1)%Q ->
     (5 - 1 <= u)%Z).
Proof.
  apply (time_until_expiry_after_start (Session.new 5)
           (world0 clock_half_s EmptyString) 5%Z).
  - reflexivity.
  - exists 5%Z, 0%Z. split; [reflexivity|]. split; [lia|reflexivity].
  - exists 1005%Z, 0%Z. split; [reflexivity|]. split; [lia|reflexivity].
  - exists 4%Z, 0%Z. split; [reflexivity|]. split; [lia|reflexivity].
  - vm_compute. discriminate.
  - vm_compute. discriminate.
Defined.

(** X3.  While the session is expired, [time_since_expiry] does not
    decrease: of two queries, the one whose clock reading is later returns
    at least as much. *)
Theorem time_since_expiry_monotone
    (s : Session.t) (e : Q) (w1 w2 : World) :
  Session._session_expiry s = Some e ->
  (e < now w1)%Q -> (e < now w2)%Q ->
  (now (tick w1) <= now (tick w2))%Q ->
  exists a b,
    outcome (Session.time_since_expiry s w1) = Ok a /\
    outcome (Session.time_since_expiry s w2) = Ok b /\
    (a <= b)%Z.
Proof.
  intros E X1 X2 H. apply Qgtb_true in X1, X2.
  rewrite (time_since_expiry_started s w1 e E), X1.
  rewrite (time_since_expiry_started s w2 e E), X2.
  eexists. eexists. split; [reflexivity|]. split; [reflexivity|].
  apply int_le_mono. lra.
Qed.

Lemma time_since_expiry_monotone_witness :
  exists a b,
    outcome (Session.time_since_expiry (Session.mk (Some 5%Z) (Some 0%Q))
               (world0 clock_1s EmptyString)) = Ok a /\
    outcome (Session.time_since_expiry (Session.mk (Some 5%Z) (Some 0%Q))
               (tick (tick (world0 clock_1s EmptyString)))) = Ok b /\
    (a <= b)%Z.
Proof.
  apply (time_since_expiry_monotone (Session.mk (Some 5%Z) (Some 0%Q)) 0%Q
           (world0 clock_1s EmptyString)
           (tick (tick (world0 clock_1s EmptyString)))).
  - reflexivity.
  - vm_compute. reflexivity.
  - vm_compute. reflexivity.
  - vm_compute. discriminate.
Defined.

(** X5: a fresh session queried three times (for
    [queries_fail_before_start_and_expire]). *)
Lemma queries_fail_witness :
  let (s, w) := run [HasExpired; RequireSession; TimeUntilExpiry]
                  (Session.new 5) (world0 clock_1s EmptyString) in
  outcome (Session.has_expired s w) = Raise not_started_yet /\
  outcome (Session.time_until_expiry s w) = Raise not_started_yet /\
  outcome (Session.time_since_expiry s w) = Raise not_started_yet /\
  outcome (Session.require_session s w) = Raise not_started_yet.
Proof.
  apply (queries_fail_before_start_and_expire 5
           [HasExpired; RequireSession; TimeUntilExpiry]
           (world0 clock_1s EmptyString)).
  - simpl. intros [H|[H|[H|[]]]]; discriminate.
  - simpl. intros [H|[H|[H|[]]]]; discriminate.
Defined.

(** X6: expiring a fresh session on the one-second clock (for
    [expire_then_expired]). *)
Lemma expire_then_expired_witness :
  let r := Session.expire_session (Session.new 5)
             (world0 clock_1s EmptyString) in
  outcome (Session.has_expired (object r) (world r)) = Ok true /\
  exists n,
    outcome (Session.require_session (object r) (world r))
      = Raise (session_expired n) /\
    outcome (Session.time_since_expiry (object r) (tick (world r))) = Ok n.
Proof.
  apply (expire_then_expired (Session.new 5) (world0 clock_1s EmptyString)).
  vm_compute. reflexivity.
Defined.

(** X7.  On a live session [require_session] returns [None] and does
    nothing but read the clock once: the session, the files and the output
    are as before. *)
Theorem require_session_is_noop_when_live (s : Session.t) (w : World) :
  live s w ->
  outcome (Session.require_session s w) = Ok tt /\
  object (Session.require_session s w) = s /\
  ticks (world (Session.require_session s w)) = S (ticks w) /\
  fs (world (Session.require_session s w)) = fs w /\
  opened (world (Session.require_session s w)) = opened w /\
  stdout (world (Session.require_session s w)) = stdout w.
Proof.
  intros L. rewrite (require_session_live s w L). repeat split; reflexivity.
Qed.

Lemma require_session_is_noop_witness :
  outcome (Session.require_session session_1s (world0 clock_1s EmptyString))
    = Ok tt /\
  object (Session.require_session session_1s (world0 clock_1s EmptyString))
    = session_1s /\
  ticks (world (Session.require_session session_1s
                  (world0 clock_1s EmptyString))) = 1%nat /\
  fs (world (Session.require_session session_1s (world0 clock_1s EmptyString)))
    = fs (world0 clock_1s EmptyString) /\
  opened (world (Session.require_session session_1s
                   (world0 clock_1s EmptyString))) = [] /\
  stdout (world (Session.require_session session_1s
                   (world0 clock_1s EmptyString))) = [].
Proof.
  apply (require_session_is_noop_when_live session_1s
           (world0 clock_1s EmptyString)).
  eexists. split; [reflexivity|]. vm_compute. discriminate.
Defined.

(** X8.  On an expired session, when the clock does not run backwards,
    [require_session] reads the clock three times and raises [ValueError]
    with the message [session expired n seconds ago], where [n] is the time
    from the expiry to the third reading, truncated to whole seconds; [n]
    is not negative and the session is as before. *)
Theorem require_session_reports_elapsed_seconds
    (s : Session.t) (w : World) (e : Q) :
  Session._session_expiry s = Some e ->
  (e < clock w (ticks w))%Q ->
  (clock w (ticks w) <= clock w (S (ticks w)))%Q ->
  (clock w (S (ticks w)) <= clock w (S (S (ticks w))))%Q ->
  let n := int (clock w (S (S (ticks w))) - e) in
  Session.require_session s w
    = (Raise (ValueError ("session expired " ++ str n ++ " seconds ago")),
       s, tick (tick (tick w))) /\
  (0 <= n)%Z.
Proof.
  intros E X H1 H2 n.
  assert (G1 : Qgtb (now w) e = true) by (apply Qgtb_true; exact X).
  assert (G2 : Qgtb (now (tick w)) e = true).
  { apply Qgtb_true. unfold now. simpl. lra. }
  split.
  - unfold Session.require_session, bind.
    rewrite (has_expired_started s w e E), G1.
    rewrite (time_since_expiry_started s (tick w) e E), G2. reflexivity.
  - apply int_nonneg. lra.
Qed.

Lemma require_session_reports_witness :
  let n := int (clock_1s 2 - 0) in
  Session.require_session (Session.mk (Some 5%Z) (Some 0%Q))
    (world0 clock_1s EmptyString)
    = (Raise (ValueError ("session expired " ++ str n ++ " seconds ago")),
       Session.mk (Some 5%Z) (Some 0%Q),
       tick (tick (tick (world0 clock_1s EmptyString)))) /\
  (0 <= n)%Z.
Proof.
  apply (require_session_reports_elapsed_seconds
           (Session.mk (Some 5%Z) (Some 0%Q)) (world0 clock_1s EmptyString) 0%Q).
  - reflexivity.
  - vm_compute. reflexivity.
  - vm_compute. discriminate.
  - vm_compute. discriminate.
Defined.

(** * Further properties of the store *)

(** ** Distinct keys *)

Lemma dict_keys_setitem (key value k : string) (d : dict) :
  k ∈ dict_keys (dict_setitem key value d) <-> k = key \/ k ∈ dict_keys d.
Proof.
  induction d as [|[k0 v0] r IH]; simpl.
  - rewrite list_elem_of_singleton, elem_of_nil. tauto.
  - destruct (String.eqb key k0) eqn:E; simpl.
    + apply String.eqb_eq in E. subst k0. rewrite elem_of_cons. tauto.
    + rewrite !elem_of_cons, IH. tauto.
Qed.

Lemma dict_setitem_distinct (key value : string) (d : dict) :
  NoDup (dict_keys d) -> NoDup (dict_keys (dict_setitem key value d)).
Proof.
  induction d as [|[k0 v0] r IH]; simpl; intros N.
  - apply NoDup_singleton.
  - apply NoDup_cons in N. destruct N as [N1 N2].
    destruct (String.eqb key k0) eqn:E; simpl.
    + apply NoDup_cons. split; assumption.
    + apply NoDup_cons. split; [|apply IH; exact N2].
      rewrite dict_keys_setitem. intros [H|H]; [|exact (N1 H)].
      apply String.eqb_neq in E. congruence.
Qed.

Lemma load_lines_distinct (lines : list string) :
  forall acc d,
  NoDup (dict_keys acc) ->
  Database.load_lines lines acc = Ok d ->
  NoDup (dict_keys d).
Proof.
  induction lines as [|l rest IH]; intros acc d N; simpl.
  - intros E. injection E as <-. exact N.
  - destruct (split colon l) as [|p1 [|p2 [|p3 ps]]]; try discriminate.
    apply IH. apply dict_setitem_distinct. exact N.
Qed.

(** ** Construction *)

Lemma login_valid_level (access_level : string) (s : Session.t) (w : World) :
  access_level = "user" \/ access_level = "admin" ->
  Database._login access_level s w
    = (Ok tt,
       Session.mk (Some (session_length access_level))
         (Some (now w + inject_Z (session_length access_level))%Q),
       tick w).
Proof.
  intros [->| ->]; reflexivity.
Qed.

Lemma init_valid_level (access_level path : string) (w : World) :
  access_level = "user" \/ access_level = "admin" ->
  Database.__init__ access_level path w =
    match Database._load path false
            (Session.mk (Some (session_length access_level))
               (Some (now w + inject_Z (session_length access_level))%Q))
            (tick w) with
    | (Ok database, s2, w2) =>
        (Ok (Database.mk s2 database access_level path), w2)
    | (Raise e, _, w2) => (Raise e, w2)
    end.
Proof.
  intros V. unfold Database.__init__.
  rewrite (login_valid_level access_level Session.blank w V). reflexivity.
Qed.

Lemma session_length_bounds (access_level : string) :
  (900 <= session_length access_level <= 1800)%Z.
Proof.
  unfold session_length, Database._USER_SESSION_LENGTH,
    Database._ADMIN_SESSION_LENGTH.
  destruct (String.eqb access_level "user"); lia.
Qed.






(** X12.  Constructing a store with a valid level over a path that names
    no file, when the session is still live at the reading of [_load] (the
    clock has not jumped past the session length since [start_session]),
    raises [FileNotFoundError]; the session had been started (the clock
    was read twice) and no file was changed. *)
Theorem init_missing_file (access_level path : string) (w : World) :
  access_level = "user" \/ access_level = "admin" ->
  fs w !! path = None ->
  (clock w (S (ticks w))
   <= clock w (ticks w) + inject_Z (session_length access_level))%Q ->
  Database.__init__ access_level path w
    = (Raise (FileNotFoundError path), log_open path (tick (tick w))).
Proof.
  intros V F J. rewrite (init_valid_level access_level path w V).
  set (s1 := Session.mk (Some (session_length access_level))
               (Some (now w + inject_Z (session_length access_level))%Q)).
  assert (L : live s1 (tick w)).
  { eexists. split; [reflexivity|]. exact J. }
  run_store. rewrite (require_session_live s1 (tick w) L).
  unfold open_readlines. simpl. rewrite F. reflexivity.
Qed.

Lemma init_missing_file_witness :
  Database.__init__ "admin" "other.txt" (world0 clock_1s text_ab)
    = (Raise (FileNotFoundError "other.txt"),
       log_open "other.txt" (tick (tick (world0 clock_1s text_ab)))).
Proof.
  apply (init_missing_file "admin" "other.txt" (world0 clock_1s text_ab)).
  - right. reflexivity.
  - reflexivity.
  - vm_compute. discriminate.
Defined.



(** ** Reading and writing the mapping *)

Lemma super_require_session_frame (db : Database.t) (w : World) :
  exists r w',
    Database.super Session.require_session db w = (r, db, w') /\
    (r = Ok tt \/ exists msg, r = Raise (ValueError msg)) /\
    clock w' = clock w /\ fs w' = fs w /\ opened w' = opened w /\
    stdout w' = stdout w.
Proof.
  destruct (require_session_frame (Database.base db) w) as (r & w' & E & F).
  exists r, w'. unfold Database.super. rewrite E.
  split; [destruct db; reflexivity|exact F].
Qed.

Lemma view_frame (db : Database.t) (w : World) (key : string) :
  object (Database.view key db w) = db /\
  clock (world (Database.view key db w)) = clock w /\
  fs (world (Database.view key db w)) = fs w /\
  opened (world (Database.view key db w)) = opened w.
Proof.
  destruct (super_require_session_frame db w)
    as (r & w' & E & [->|[msg ->]] & C & F & O & _);
    run_store; rewrite E; simpl.
  - destruct (Database._database db); simpl; repeat split; assumption.
  - repeat split; assumption.
Qed.

Lemma modify_frame (db : Database.t) (w : World) (key value : string) :
  let r := Database.modify key value db w in
  clock (world r) = clock w /\
  fs (world r) = fs w /\ opened (world r) = opened w /\
  Database.base (object r) = Database.base db /\
  Database._access_level (object r) = Database._access_level db /\
  Database._database_path (object r) = Database._database_path db /\
  (Database._access_level db <> "admin" -> object r = db) /\
  (distinct_keys db -> distinct_keys (object r)).
Proof.
  destruct (super_require_session_frame db w)
    as (r & w' & E & [->|[msg ->]] & C & F & O & _);
    run_store; rewrite E; simpl.
  - destruct (String.eqb (Database._access_level db) "admin") eqn:A; simpl.
    + apply String.eqb_eq in A.
      destruct (Database._database db) as [d|] eqn:D; simpl.
      * split; [exact C|]. split; [exact F|]. split; [exact O|].
        split; [reflexivity|]. split; [reflexivity|]. split; [reflexivity|].
        split; [intros N; contradiction|].
        intros N. unfold distinct_keys in *. rewrite D in N. simpl.
        apply dict_setitem_distinct. exact N.
      * split; [exact C|]. split; [exact F|]. split; [exact O|].
        repeat (split; [reflexivity|]). tauto.
    + split; [exact C|]. split; [exact F|]. split; [exact O|].
      repeat (split; [reflexivity|]). tauto.
  - split; [exact C|]. split; [exact F|]. split; [exact O|].
    repeat (split; [reflexivity|]). tauto.
Qed.

(** X21.  In every state of the store, [view] and [modify] open no file
    and change no file; [view] leaves the store as it is, and [modify]
    leaves the session, the access level and the path as they are. *)
Theorem view_and_modify_never_touch_files
    (db : Database.t) (w : World) (key value : string) :
  (object (Database.view key db w) = db /\
   fs (world (Database.view key db w)) = fs w /\
   opened (world (Database.view key db w)) = opened w) /\
  (fs (world (Database.modify key value db w)) = fs w /\
   opened (world (Database.modify key value db w)) = opened w /\
   Database.base (object (Database.modify key value db w)) = Database.base db /\
   Database._access_level (object (Database.modify key value db w))
     = Database._access_level db /\
   Database._database_path (object (Database.modify key value db w))
     = Database._database_path db).
Proof.
  destruct (view_frame db w key) as (V1 & _ & V2 & V3).
  destruct (modify_frame db w key value) as (_ & M1 & M2 & M3 & M4 & M5 & _).
  repeat split; assumption.
Qed.

(** Construction over a well-formed file when the session is live at
    the reading of [_load]. *)
Lemma init_constructs_within_session
    (access_level path text : string) (w : World) :
  access_level = "user" \/ access_level = "admin" ->
  fs w !! path = Some text ->
  Forall (fun line => colons line = 1%nat) (readlines text) ->
  (clock w (S (ticks w))
   <= clock w (ticks w) + inject_Z (session_length access_level))%Q ->
  exists db d,
    Database.__init__ access_level path w
      = (Ok db, log_open path (tick (tick w))) /\
    Session._session_expiry (Database.base db)
      = Some (now w + inject_Z (session_length access_level))%Q /\
    Database._database db = Some d /\
    forall key, dict_lookup key d = spec_value key (readlines text).
Proof.
  intros V F A J. rewrite (init_valid_level access_level path w V).
  set (s1 := Session.mk (Some (session_length access_level))
               (Some (now w + inject_Z (session_length access_level))%Q)).
  assert (L : live s1 (tick w)).
  { eexists. split; [reflexivity|]. exact J. }
  rewrite (load_live s1 (tick w) path text false L F).
  destruct (load_lines_one_colon (readlines text) A []) as (d & E & Hd).
  rewrite E. eexists. exists d.
  split; [reflexivity|]. split; [reflexivity|]. split; [reflexivity|].
  intros key. rewrite Hd.
  destruct (spec_value key (readlines text)); reflexivity.
Qed.

(** X14.  A store constructed with a valid level over a file whose lines
    have one colon each, the session being live at the reading of
    [_load], answers every [view(key)] made while the session is live
    (the clock reading of the [view] is not past the start plus the
    session length of the level) with the trimmed value of the last line
    whose key is [key], and with ["Key does not exist"] when no line has
    that key (so for every key when the file is empty). *)
Theorem view_after_construction
    (access_level path text key : string) (w w1 : World) :
  access_level = "user" \/ access_level = "admin" ->
  fs w !! path = Some text ->
  Forall (fun line => colons line = 1%nat) (readlines text) ->
  (clock w (S (ticks w))
   <= clock w (ticks w) + inject_Z (session_length access_level))%Q ->
  exists db w',
    Database.__init__ access_level path w = (Ok db, w') /\
    ((now w1 <= now w + inject_Z (session_length access_level))%Q ->
     outcome (Database.view key db w1)
       = Ok (Some (default "Key does not exist"
                     (spec_value key (readlines text))))).
Proof.
  intros V F A J.
  destruct (init_constructs_within_session access_level path text w V F A J)
    as (db & d & E & X & D & Hd).
  exists db. eexists. split; [exact E|]. intros H.
  assert (L : live (Database.base db) w1).
  { eexists. split; [exact X|exact H]. }
  rewrite (view_live db w1 d key L D). unfold outcome, dict_get. simpl.
  rewrite Hd. destruct (spec_value key (readlines text)); reflexivity.
Qed.

(** A ["user"] store viewed 1500 seconds after its construction. *)
Lemma view_after_construction_witness :
  exists db w',
    Database.__init__ "user" "db.txt" (world0 clock_1s text_dup) = (Ok db, w') /\
    outcome (Database.view "a" db (world_at clock_1s 1500 text_dup))
      = Ok (Some (default "Key does not exist"
                    (spec_value "a" (readlines text_dup)))).
Proof.
  destruct (view_after_construction "user" "db.txt" text_dup "a"
              (world0 clock_1s text_dup) (world_at clock_1s 1500 text_dup))
    as (db & w' & E & H).
  - left. reflexivity.
  - reflexivity.
  - repeat constructor.
  - vm_compute. discriminate.
  - exists db, w'. split; [exact E|]. apply H. vm_compute. discriminate.
Defined.

(** X15.  On an ["admin"] store with a mapping, while the session is live,
    a [view] that follows [modify(key, value)] returns [value] for [key]
    and, for every other key, what it returned before. *)
Theorem modify_then_view
    (db : Database.t) (w : World) (d : dict) (key value k : string) :
  live (Database.base db) w ->
  live (Database.base db) (tick w) ->
  Database._access_level db = "admin" ->
  Database._database db = Some d ->
  let r := Database.modify key value db w in
  outcome (Database.view key (object r) (world r)) = Ok (Some value) /\
  (k <> key ->
   outcome (Database.view k (object r) (world r))
     = outcome (Database.view k db w)).
Proof.
  intros L1 L2 A D r. subst r.
  rewrite (modify_live_admin db w d key value L1 A D).
  unfold object, world. cbn [fst snd].
  set (db1 := Database.mk (Database.base db) (Some (dict_setitem key value d))
                (Database._access_level db) (Database._database_path db)).
  rewrite (view_live db1 (tick w) (dict_setitem key value d) key L2 eq_refl).
  rewrite (view_live db1 (tick w) (dict_setitem key value d) k L2 eq_refl).
  rewrite (view_live db w d k L1 D).
  unfold outcome, dict_get. simpl. split.
  - rewrite dict_lookup_setitem_eq. reflexivity.
  - intros N. rewrite (dict_lookup_setitem_ne key value k d N). reflexivity.
Qed.

Lemma modify_then_view_witness :
  let r := Database.modify "c" "3" (store_ab "admin" 900) (world_ab clock_1s) in
  outcome (Database.view "c" (object r) (world r)) = Ok (Some "3") /\
  ("a" <> "c" ->
   outcome (Database.view "a" (object r) (world r))
     = outcome (Database.view "a" (store_ab "admin" 900) (world_ab clock_1s))).
Proof.
  apply (modify_then_view (store_ab "admin" 900) (world_ab clock_1s)
           [("a", "1"); ("b", "2")] "c" "3" "a").
  - eexists. split; [reflexivity|]. vm_compute. discriminate.
  - eexists. split; [reflexivity|]. vm_compute. discriminate.
  - reflexivity.
  - reflexivity.
Defined.

(** X24.  On a store without a mapping (its [_load] was refused) whose
    session is live again, [view] raises [AttributeError]; [modify] raises
    [PermissionError] for a level other than ["admin"] (the level is
    tested first) and [TypeError] for ["admin"].  The store is as
    before. *)
Theorem operations_without_mapping
    (db : Database.t) (w : World) (key value : string) :
  live (Database.base db) w ->
  Database._database db = None ->
  Database.view key db w = (Raise (AttributeError "get"), db, tick w) /\
  (Database._access_level db <> "admin" ->
   Database.modify key value db w
     = (Raise (PermissionError "Only admins can modify the database."),
        db, tick w)) /\
  (Database._access_level db = "admin" ->
   Database.modify key value db w
     = (Raise (TypeError "'NoneType' object does not support item assignment"),
        db, tick w)).
Proof.
  intros L D. split; [|split].
  - run_store. rewrite (super_require_session_live db w L), D. reflexivity.
  - intros N. apply modify_live_not_admin; assumption.
  - intros A. run_store. rewrite (super_require_session_live db w L).
    rewrite A. simpl. rewrite D. reflexivity.
Qed.

Lemma operations_without_mapping_witness :
  Database.view "a"
    (Database.mk session_1s None "admin" "db.txt") (world_ab clock_1s)
    = (Raise (AttributeError "get"),
       Database.mk session_1s None "admin" "db.txt", tick (world_ab clock_1s)) /\
  ("admin" <> "admin" ->
   Database.modify "a" "9"
     (Database.mk session_1s None "admin" "db.txt") (world_ab clock_1s)
     = (Raise (PermissionError "Only admins can modify the database."),
        Database.mk session_1s None "admin" "db.txt",
        tick (world_ab clock_1s))) /\
  ("admin" = "admin" ->
   Database.modify "a" "9"
     (Database.mk session_1s None "admin" "db.txt") (world_ab clock_1s)
     = (Raise (TypeError "'NoneType' object does not support item assignment"),
        Database.mk session_1s None "admin" "db.txt",
        tick (world_ab clock_1s))).
Proof.
  apply (operations_without_mapping
           (Database.mk session_1s None "admin" "db.txt") (world_ab clock_1s)
           "a" "9").
  - eexists. split; [reflexivity|]. vm_compute. discriminate.
  - reflexivity.
Defined.

(** The loop of [logout] leaves the store as it is, reads no clock, opens
    nothing, prints nothing and writes to no other file than the one at
    [path]. *)
Lemma logout_loop_frame (path : string) (keys : list string) :
  forall (db : Database.t) (w : World),
  object (Database.logout_loop path keys db w) = db /\
  clock (world (Database.logout_loop path keys db w)) = clock w /\
  ticks (world (Database.logout_loop path keys db w)) = ticks w /\
  opened (world (Database.logout_loop path keys db w)) = opened w /\
  stdout (world (Database.logout_loop path keys db w)) = stdout w /\
  forall p, p <> path ->
            fs (world (Database.logout_loop path keys db w)) !! p = fs w !! p.
Proof.
  induction keys as [|key rest IH]; intros db w.
  - simpl. repeat split; reflexivity.
  - simpl. unfold bind, f_write, Database.the_dict, raise. simpl.
    destruct (Database._database db) as [d|]; simpl.
    + destruct (dict_lookup key d) as [v|]; simpl.
      * match goal with
        | |- context [Database.logout_loop path rest db ?w1] =>
            destruct (IH db w1) as (I1 & I2 & I3 & I4 & I5 & I6)
        end.
        rewrite I1, I2, I3, I4, I5. repeat split; try reflexivity.
        intros p N. rewrite (I6 p N). simpl.
        rewrite !lookup_insert_ne by congruence. reflexivity.
      * repeat split; try reflexivity.
        intros p N. rewrite !lookup_insert_ne by congruence. reflexivity.
    + repeat split; try reflexivity.
      intros p N. rewrite !lookup_insert_ne by congruence. reflexivity.
Qed.

(** In every state, [logout] changes nothing of the store but the expiry
    of its session, reads the clock once, opens the backing path and no
    other, prints nothing and changes no other file. *)
Lemma logout_frame (db : Database.t) (w : World) :
  let r := Database.logout db w in
  object r
    = Database.mk
        (Session.mk (Session._session_duration (Database.base db))
           (Some (now w)))
        (Database._database db) (Database._access_level db)
        (Database._database_path db) /\
  clock (world r) = clock w /\
  ticks (world r) = S (ticks w) /\
  opened (world r) = opened w ++ [Database._database_path db] /\
  stdout (world r) = stdout w /\
  forall p, p <> Database._database_path db ->
            fs (world r) !! p = fs w !! p.
Proof.
  unfold Database.logout.
  unfold bind at 1. unfold Database.super, Session.expire_session, bind,
    time_time, Session.setattr_expiry, Database.getattr_database_path,
    open_w, Database.the_dict. simpl.
  destruct (Database._database db) as [d|] eqn:D; simpl.
  - match goal with
    | |- context [Database.logout_loop ?p ?ks ?db1 ?w1] =>
        destruct (logout_loop_frame p ks db1 w1)
          as (I1 & I2 & I3 & I4 & I5 & I6)
    end.
    rewrite I1, I2, I3, I4, I5. repeat split; try reflexivity.
    intros p N. rewrite (I6 p N). simpl.
    rewrite lookup_insert_ne by congruence. reflexivity.
  - repeat split; try reflexivity.
    intros p N. rewrite lookup_insert_ne by congruence. reflexivity.
Qed.

(** X17.  [logout] on a store whose mapping has distinct keys expires the
    session (the expiry becomes the clock reading), opens the backing path
    and replaces the text of that file by key, colon and value of every
    item in the order of the mapping, with nothing between the items; the
    mapping stays in memory and no other file is changed. *)
Theorem logout_persists_items (db : Database.t) (w : World) (d : dict) :
  Database._database db = Some d ->
  NoDup (dict_keys d) ->
  let r := Database.logout db w in
  outcome r = Ok tt /\
  fs (world r) !! Database._database_path db = Some (written d) /\
  (forall p, p <> Database._database_path db -> fs (world r) !! p = fs w !! p) /\
  opened (world r) = opened w ++ [Database._database_path db] /\
  Database._database (object r) = Some d /\
  Session._session_expiry (Database.base (object r)) = Some (now w).
Proof.
  intros D N r. subst r.
  destruct (logout_frame db w) as (_ & _ & _ & O & _ & P).
  destruct (logout_writes db w d D N) as (db' & E & D' & X).
  rewrite E in *. unfold outcome, object, world in *. simpl in *.
  split; [reflexivity|]. split; [apply lookup_insert_eq|].
  split; [exact P|]. split; [reflexivity|]. split; assumption.
Qed.

Lemma logout_persists_items_witness :
  let r := Database.logout (store_ab "admin" 900) (world_ab clock_1s) in
  outcome r = Ok tt /\
  fs (world r) !! Database._database_path (store_ab "admin" 900)
    = Some (written [("a", "1"); ("b", "2")]) /\
  (forall p, p <> Database._database_path (store_ab "admin" 900) ->
             fs (world r) !! p = fs (world_ab clock_1s) !! p) /\
  opened (world r)
    = opened (world_ab clock_1s)
      ++ [Database._database_path (store_ab "admin" 900)] /\
  Database._database (object r) = Some [("a", "1"); ("b", "2")] /\
  Session._session_expiry (Database.base (object r))
    = Some (now (world_ab clock_1s)).
Proof.
  apply (logout_persists_items (store_ab "admin" 900) (world_ab clock_1s)
           [("a", "1"); ("b", "2")]).
  - reflexivity.
  - repeat constructor; simpl; rewrite ?elem_of_cons, ?elem_of_nil;
      intros H; decompose [or] H; discriminate || contradiction.
Defined.

(** X18.  [logout] on a store without a mapping (its [_load] was refused)
    expires the session, empties the backing file and then raises
    [TypeError]: what the file held is lost. *)
Theorem logout_without_mapping_empties_file (db : Database.t) (w : World) :
  Database._database db = None ->
  let r := Database.logout db w in
  outcome r = Raise (TypeError "'NoneType' object is not iterable") /\
  fs (world r) !! Database._database_path db = Some EmptyString /\
  Session._session_expiry (Database.base (object r)) = Some (now w).
Proof.
  intros D r. subst r. unfold Database.logout.
  unfold bind at 1. unfold Database.super, Session.expire_session, bind,
    time_time, Session.setattr_expiry, Database.getattr_database_path,
    open_w, Database.the_dict. simpl. rewrite D.
  unfold outcome, object, world. simpl.
  split; [reflexivity|]. split; [apply lookup_insert_eq|reflexivity].
Qed.

Lemma logout_without_mapping_witness :
  let r := Database.logout (Database.mk session_1s None "admin" "db.txt")
             (world_ab clock_1s) in
  outcome r = Raise (TypeError "'NoneType' object is not iterable") /\
  fs (world r)
    !! Database._database_path (Database.mk session_1s None "admin" "db.txt")
    = Some EmptyString /\
  Session._session_expiry (Database.base (object r))
    = Some (now (world_ab clock_1s)).
Proof.
  apply (logout_without_mapping_empties_file
           (Database.mk session_1s None "admin" "db.txt") (world_ab clock_1s)).
  reflexivity.
Defined.

(** X19.  After [logout], once the clock has moved on, the store refuses
    its operations: [view] returns [None] and [modify] changes nothing. *)
Theorem operations_refused_after_logout
    (db : Database.t) (w : World) (key value : string) :
  (clock w (ticks w) < clock w (S (ticks w)))%Q ->
  let r := Database.logout db w in
  outcome (Database.view key (object r) (world r)) = Ok None /\
  outcome (Database.modify key value (object r) (world r)) = Ok tt /\
  object (Database.modify key value (object r) (world r)) = object r.
Proof.
  intros H r.
  destruct (logout_frame db w) as (E & C & T & _). fold r in E, C, T.
  assert (X : expired (Database.base (object r)) (world r)).
  { rewrite E. eexists. split; [reflexivity|].
    unfold now. rewrite C, T. exact H. }
  destruct (view_expired (object r) (world r) key X) as (w1 & E1 & _).
  destruct (modify_expired (object r) (world r) key value X) as (w2 & E2 & _).
  rewrite E1, E2. repeat split; reflexivity.
Qed.

Lemma operations_refused_after_logout_witness :
  let r := Database.logout (store_ab "admin" 900) (world_ab clock_1s) in
  outcome (Database.view "a" (object r) (world r)) = Ok None /\
  outcome (Database.modify "a" "9" (object r) (world r)) = Ok tt /\
  object (Database.modify "a" "9" (object r) (world r)) = object r.
Proof.
  apply (operations_refused_after_logout (store_ab "admin" 900)
           (world_ab clock_1s) "a" "9").
  vm_compute. reflexivity.
Defined.

(** ** Histories of a store *)

Lemma start_session_world (s : Session.t) (w : World) :
  world (Session.start_session s w) = tick w.
Proof.
  unfold Session.start_session, bind, time_time, Session.getattr_duration,
    Session.setattr_expiry, world. simpl.
  destruct (Session._session_duration s); reflexivity.
Qed.

(** What one call can change. *)
Lemma perform_store_frame (c : store_call) (db : Database.t) (w : World) :
  Database._access_level (fst (perform_store c db w))
    = Database._access_level db /\
  Database._database_path (fst (perform_store c db w))
    = Database._database_path db /\
  (Database._access_level db <> "admin" ->
   Database._database (fst (perform_store c db w)) = Database._database db) /\
  (distinct_keys db -> distinct_keys (fst (perform_store c db w))) /\
  (c <> Logout -> fs (snd (perform_store c db w)) = fs w) /\
  (forall p, p <> Database._database_path db ->
             fs (snd (perform_store c db w)) !! p = fs w !! p).
Proof.
  destruct c as [key|key value| | |]; simpl; unfold after_store; simpl.
  - destruct (view_frame db w key) as (E & _ & F & _). rewrite E, F.
    repeat split; try reflexivity; tauto.
  - destruct (modify_frame db w key value) as (_ & F & _ & _ & A & P & U & N).
    rewrite A, P, F. repeat split; try reflexivity; try assumption.
    + intros H. rewrite (U H). reflexivity.
  - destruct (logout_frame db w) as (E & _ & _ & _ & _ & F). rewrite E. simpl.
    repeat split; try reflexivity; try assumption; tauto.
  - unfold Database.super, object, world.
    pose proof (start_session_world (Database.base db) w) as W.
    unfold world in W.
    destruct (Session.start_session (Database.base db) w) as [[r b] w'].
    simpl in *. subst w'. repeat split; try reflexivity; tauto.
  - repeat split; try reflexivity; tauto.
Qed.

(** X22.  No call changes the access level or the path of a store: after
    any history of [view], [modify], [logout], [start_session] and
    [expire_session] they are what the constructor was given. *)
Theorem level_and_path_never_change
    (cs : list store_call) (db : Database.t) (w : World) :
  Database._access_level (fst (run_store_calls cs db w))
    = Database._access_level db /\
  Database._database_path (fst (run_store_calls cs db w))
    = Database._database_path db.
Proof.
  revert db w. induction cs as [|c cs IH]; intros db w; [split; reflexivity|].
  simpl. destruct (perform_store c db w) as [db' w'] eqn:P.
  destruct (IH db' w') as [I1 I2]. rewrite I1, I2.
  destruct (perform_store_frame c db w) as (A & B & _).
  rewrite P in A, B. exact (conj A B).
Qed.

(** X23.  A store whose level is not ["admin"] never changes its mapping:
    after any history of calls the mapping in memory is the one that was
    loaded. *)
Theorem mapping_of_non_admin_store_never_changes
    (cs : list store_call) (db : Database.t) (w : World) :
  Database._access_level db <> "admin" ->
  Database._database (fst (run_store_calls cs db w)) = Database._database db.
Proof.
  revert db w. induction cs as [|c cs IH]; intros db w N; [reflexivity|].
  simpl. destruct (perform_store c db w) as [db' w'] eqn:P.
  destruct (perform_store_frame c db w) as (A & _ & D & _).
  rewrite P in A, D. simpl in A, D.
  rewrite IH by (rewrite A; exact N). apply D. exact N.
Qed.

Lemma mapping_of_non_admin_store_witness :
  Database._database
    (fst (run_store_calls
            [Modify "a" "9"; View "a"; Logout; StartSession; Modify "c" "3"]
            (store_ab "user" 1800) (world_ab clock_1s)))
    = Database._database (store_ab "user" 1800).
Proof.
  apply (mapping_of_non_admin_store_never_changes
           [Modify "a" "9"; View "a"; Logout; StartSession; Modify "c" "3"]
           (store_ab "user" 1800) (world_ab clock_1s)).
  simpl. discriminate.
Defined.

(** X25.  Only [logout] writes: a history without [logout] leaves every
    file as it is, and no history changes a file other than the one at the
    store's path. *)
Theorem files_change_only_at_logout
    (cs : list store_call) (db : Database.t) (w : World) :
  (~ In Logout cs -> fs (snd (run_store_calls cs db w)) = fs w) /\
  (forall p, p <> Database._database_path db ->
             fs (snd (run_store_calls cs db w)) !! p = fs w !! p).
Proof.
  revert db w. induction cs as [|c cs IH]; intros db w;
    [split; intros; reflexivity|].
  simpl. destruct (perform_store c db w) as [db' w'] eqn:P.
  destruct (IH db' w') as [I1 I2].
  destruct (perform_store_frame c db w) as (_ & B & _ & _ & F & G).
  rewrite P in B, F, G. simpl in B, F, G. split.
  - intros N. rewrite I1 by (intros H; apply N; right; exact H).
    apply F. intros ->. apply N. left. reflexivity.
  - intros p N. rewrite I2 by (rewrite B; exact N). apply G. exact N.
Qed.

Lemma files_change_only_at_logout_witness :
  fs (snd (run_store_calls [Modify "a" "9"; View "a"; ExpireSession]
             (store_ab "admin" 900) (world_ab clock_1s)))
    = fs (world_ab clock_1s) /\
  fs (snd (run_store_calls [Modify "a" "9"; Logout]
             (store_ab "admin" 900) (world_ab clock_1s))) !! "other.txt"
    = fs (world_ab clock_1s) !! "other.txt".
Proof.
  split.
  - apply (files_change_only_at_logout
             [Modify "a" "9"; View "a"; ExpireSession]
             (store_ab "admin" 900) (world_ab clock_1s)).
    simpl. intros [H|[H|[H|[]]]]; discriminate.
  - apply (files_change_only_at_logout [Modify "a" "9"; Logout]
             (store_ab "admin" 900) (world_ab clock_1s)).
    simpl. discriminate.
Defined.

Lemma load_result_distinct (s s' : Session.t) (w w' : World)
    (path : string) (flush : bool) (d : dict) :
  Database._load path flush s w = (Ok (Some d), s', w') ->
  NoDup (dict_keys d).
Proof.
  destruct (require_session_frame s w) as (r & w1 & E & [->|[msg ->]] & _);
    run_store; rewrite E; simpl; [|discriminate].
  unfold open_readlines. destruct (fs w1 !! path) as [text|]; [|discriminate].
  destruct (Database.load_lines (readlines text) []) as [d0|e] eqn:L;
    [|discriminate].
  intros H. injection H as <- _ _.
  apply (load_lines_distinct (readlines text) [] d0); [apply NoDup_nil_2|exact L].
Qed.

Lemma run_store_calls_distinct (cs : list store_call) :
  forall (db : Database.t) (w : World),
  distinct_keys db -> distinct_keys (fst (run_store_calls cs db w)).
Proof.
  induction cs as [|c cs IH]; intros db w N; [exact N|].
  simpl. destruct (perform_store c db w) as [db' w'] eqn:P.
  apply IH. destruct (perform_store_frame c db w) as (_ & _ & _ & D & _).
  rewrite P in D. apply D. exact N.
Qed.

(** X16.  The keys of the mapping of a constructed store are distinct, and
    they stay distinct through any history of calls. *)
Theorem keys_stay_distinct
    (access_level path : string) (w w' : World) (db : Database.t)
    (cs : list store_call) :
  Database.__init__ access_level path w = (Ok db, w') ->
  distinct_keys (fst (run_store_calls cs db w')).
Proof.
  intros E. apply run_store_calls_distinct.
  unfold Database.__init__ in E.
  destruct (Database._login access_level Session.blank w) as [[r s1] w1].
  destruct r as [u|e]; [|discriminate].
  destruct (Database._load path false s1 w1) as [[r2 s2] w2] eqn:L.
  destruct r2 as [database|e]; [|discriminate].
  injection E as <- _. unfold distinct_keys. simpl.
  destruct database as [d|]; [|exact I].
  exact (load_result_distinct s1 s2 w1 w2 path false d L).
Qed.

Lemma keys_stay_distinct_witness :
  distinct_keys
    (fst (run_store_calls [Modify "a" "9"; Modify "c" "3"; Logout]
            (store_ab "admin" 900) (world_ab clock_1s))).
Proof.
  apply (keys_stay_distinct "admin" "db.txt" (world0 clock_1s text_ab)
           (world_ab clock_1s) (store_ab "admin" 900)
           [Modify "a" "9"; Modify "c" "3"; Logout]).
  vm_compute. reflexivity.
Defined.

(** ** What is read back after [logout] *)

Lemma append_cons (c : ascii) (a b : string) :
  (String c a ++ b)%string = String c (a ++ b)%string.
Proof. reflexivity. Qed.

Lemma line_breaks_append (a b : string) :
  line_breaks (a ++ b) = (line_breaks a + line_breaks b)%nat.
Proof.
  induction a as [|c a IH]; [reflexivity|].
  rewrite append_cons. simpl. rewrite IH.
  destruct (Ascii.eqb c newline || Ascii.eqb c carriage_return); reflexivity.
Qed.

(** A text without line feed and carriage return is one line. *)
Lemma readlines_one_line (text : string) :
  text <> EmptyString -> line_breaks text = 0%nat -> readlines text = [text].
Proof.
  induction text as [|c r IH]; [congruence|]. intros _. simpl.
  destruct (Ascii.eqb c newline); [discriminate|].
  destruct (Ascii.eqb c carriage_return); [discriminate|]. simpl. intros B.
  destruct r as [|c' r']; [reflexivity|].
  rewrite (IH ltac:(discriminate) B). reflexivity.
Qed.

(** A key and a value without colon, joined by a colon, are split into
    the key and the value. *)
Lemma split_key_value (k v : string) :
  colons k = 0%nat -> colons v = 0%nat ->
  split colon (k ++ ":" ++ v) = [k; v].
Proof.
  intros Hk Hv. induction k as [|c k IH].
  - change (EmptyString ++ ":" ++ v)%string with (String colon v).
    simpl. rewrite (split_no_colon v Hv). reflexivity.
  - rewrite append_cons. simpl in *.
    destruct (Ascii.eqb c colon); [discriminate|].
    rewrite (IH Hk). reflexivity.
Qed.

(** What [logout] writes for a dictionary that [reads_back] is loaded as
    that dictionary. *)
Lemma load_lines_written (d : dict) :
  reads_back d ->
  Database.load_lines (readlines (written d)) [] = Ok d.
Proof.
  intros [->|(k & v & -> & Ck & Cv & Bk & Bv & S)]; [reflexivity|].
  change (written [(k, v)]) with (k ++ ":" ++ v ++ EmptyString)%string.
  rewrite append_nil_r.
  rewrite readlines_one_line.
  - simpl. rewrite (split_key_value k v Ck Cv), S. reflexivity.
  - destruct k; discriminate.
  - rewrite !line_breaks_append, Bk, Bv. reflexivity.
Qed.

(** X20.  A mapping that is empty, or has one item whose key and value
    have no colon, no line feed and no carriage return and whose value has
    no white space at its ends, survives [logout]: a store constructed
    afterwards over the same path holds the same mapping. *)
Theorem small_mapping_survives_logout
    (db : Database.t) (w : World) (d : dict) (access_level : string) :
  Database._database db = Some d ->
  reads_back d ->
  access_level = "user" \/ access_level = "admin" ->
  (clock w (S (S (ticks w))) <= clock w (S (ticks w)) + 900)%Q ->
  let r := Database.logout db w in
  exists db' w',
    Database.__init__ access_level (Database._database_path db) (world r)
      = (Ok db', w') /\
    Database._database db' = Some d.
Proof.
  intros D R V J r.
  assert (N : NoDup (dict_keys d)).
  { destruct R as [->|(k & v & -> & _)]; [apply NoDup_nil_2|].
    apply NoDup_singleton. }
  assert (F : fs (world r) !! Database._database_path db = Some (written d)).
  { destruct (logout_writes db w d D N) as (db1 & E & _).
    subst r. rewrite E. apply lookup_insert_eq. }
  destruct (logout_frame db w) as (_ & C & T & _). fold r in C, T.
  rewrite (init_valid_level access_level _ (world r) V).
  set (s1 := Session.mk (Some (session_length access_level))
               (Some (now (world r) + inject_Z (session_length access_level))%Q)).
  assert (L : live s1 (tick (world r))).
  { eexists. split; [reflexivity|]. unfold now. simpl. rewrite C, T.
    pose proof (session_length_bounds access_level) as B.
    assert (900 <= inject_Z (session_length access_level))%Q
      by (unfold Qle; simpl; lia).
    lra. }
  rewrite (load_live s1 (tick (world r)) _ (written d) false L F).
  rewrite (load_lines_written d R).
  eexists. eexists. split; reflexivity.
Qed.

(** The store over the text [a:1\n], logged out and constructed again. *)
Lemma small_mapping_survives_logout_witness :
  let r := Database.logout
             (Database.mk session_1s (Some [("a", "1")]) "admin" "db.txt")
             (world_at clock_1s 2 text_a) in
  exists db' w',
    Database.__init__ "user"
      (Database._database_path
         (Database.mk session_1s (Some [("a", "1")]) "admin" "db.txt"))
      (world r)
      = (Ok db', w') /\
    Database._database db' = Some [("a", "1")].
Proof.
  apply (small_mapping_survives_logout
           (Database.mk session_1s (Some [("a", "1")]) "admin" "db.txt")
           (world_at clock_1s 2 text_a) [("a", "1")] "user").
  - reflexivity.
  - right. exists "a", "1". repeat split; reflexivity.
  - left. reflexivity.
  - vm_compute. discriminate.
Defined.

(** ** The session of a store *)




